(** * photo_watermark: a shallow embedding of [watermark.py]

    The program stamps the capture date of a photograph onto the image.
    This development embeds the functions of [watermark.py] and proves
    the properties of its specification.

    Conventions.
    - A Python [int] is a [Z]; [//] is [Z.div] (both round towards minus
      infinity).
    - A Python [str] is the Rocq [string] holding its UTF-8 encoding; a
      [bytes] object is the [string] of its bytes.
    - [pathlib.Path] is the pure POSIX flavour of CPython 3.11: a root
      and the list of path segments.
    - Pillow, the file system and the functions of the Python library
      the program calls are an interface ([Platform]); the program is
      defined over any implementation of it.  Every failure of these
      calls is a Python [Exception] (signals deriving from
      [BaseException] only, such as [KeyboardInterrupt], are not part of
      the model). *)

From Stdlib Require Import ZArith List String Ascii Bool Lia DecimalString.
Import ListNotations.
Local Open Scope string_scope.
Local Open Scope Z_scope.

(** ** Python strings *)

Module PyStr.

(** [str.lower] restricted to ASCII letters.  The program only compares
    lowered text with ASCII literals ([".png"], [".jpg"], ...), and no
    character outside ASCII lowers to one of the letters they use. *)
Definition lower_ascii (c : ascii) : ascii :=
  let n := nat_of_ascii c in
  if (Nat.leb 65 n && Nat.leb n 90)%bool then ascii_of_nat (n + 32) else c.

Fixpoint lower (s : string) : string :=
  match s with
  | EmptyString => EmptyString
  | String c r => String (lower_ascii c) (lower r)
  end.

Definition len (s : string) : Z := Z.of_nat (String.length s).

(** [s.rfind(c)]: the highest index of [c] in [s], [-1] when absent. *)
Fixpoint rfind (c : ascii) (s : string) : Z :=
  match s with
  | EmptyString => -1
  | String a r =>
      let i := rfind c r in
      if 0 <=? i then i + 1
      else if Ascii.eqb a c then 0 else -1
  end.

(** [s[i:]] and [s[:i]] for [0 <= i]. *)
Definition slice_from (i : Z) (s : string) : string :=
  substring (Z.to_nat i) (String.length s - Z.to_nat i) s.
Definition slice_to (i : Z) (s : string) : string :=
  substring 0 (Z.to_nat i) s.

(** [s.endswith(suffix)] *)
Definition endswith (s suffix : string) : bool :=
  let n := String.length s in
  let m := String.length suffix in
  (Nat.leb m n && String.eqb (substring (n - m) m s) suffix)%bool.

(** [s.split(sep)] for a one-character separator. *)
Fixpoint split (sep : ascii) (s : string) : list string :=
  match s with
  | EmptyString => [EmptyString]
  | String a r =>
      if Ascii.eqb a sep then EmptyString :: split sep r
      else match split sep r with
           | [] => [String a EmptyString]
           | w :: ws => String a w :: ws
           end
  end.

(** [sep.join(parts)] *)
Fixpoint join (sep : string) (parts : list string) : string :=
  match parts with
  | [] => EmptyString
  | [p] => p
  | p :: ps => p ++ sep ++ join sep ps
  end.

(** [s.lstrip(c)] *)
Fixpoint lstrip (c : ascii) (s : string) : string :=
  match s with
  | EmptyString => EmptyString
  | String a r => if Ascii.eqb a c then lstrip c r else s
  end.

Fixpoint contains (c : ascii) (s : string) : bool :=
  match s with
  | EmptyString => false
  | String a r => (Ascii.eqb a c || contains c r)%bool
  end.

End PyStr.

(** ** pathlib (pure POSIX paths, CPython 3.11) *)

Module Pathlib.

Record Path := mkPath {
  root : string;          (* [""], ["/"] or ["//"] *)
  segs : list string      (* the parts after the root *)
}.

Definition sep : ascii := "/"%char.

(** [_PosixFlavour.splitroot]: one leading slash, or three and more,
    give the root ["/"]; exactly two give ["//"]. *)
Definition splitroot (part : string) : string * string :=
  match part with
  | String a _ =>
      if Ascii.eqb a sep then
        let stripped := PyStr.lstrip sep part in
        if Nat.eqb (String.length part - String.length stripped) 2
        then ("//", stripped) else ("/", stripped)
      else ("", part)
  | EmptyString => ("", part)
  end.

(** A segment is kept when it is neither empty nor ["."]. *)
Definition keep_seg (x : string) : bool :=
  negb (String.eqb x "") && negb (String.eqb x ".").

(** [Path(s)] *)
Definition of_string (s : string) : Path :=
  let '(r, rel) := splitroot s in
  mkPath r (filter keep_seg (PyStr.split sep rel)).

(** [str(p)] *)
Definition to_string (p : Path) : string :=
  match root p, segs p with
  | EmptyString, [] => "."
  | r, l => r ++ PyStr.join "/" l
  end.

(** [p.name] *)
Definition name (p : Path) : string := last (segs p) "".

(** [p.parent] *)
Definition parent (p : Path) : Path :=
  match segs p with
  | [] => p
  | _ => mkPath (root p) (removelast (segs p))
  end.

(** [p.suffix] *)
Definition suffix (p : Path) : string :=
  let nm := name p in
  let i := PyStr.rfind "."%char nm in
  if (0 <? i) && (i <? PyStr.len nm - 1) then PyStr.slice_from i nm else "".

(** [p.stem] *)
Definition stem (p : Path) : string :=
  let nm := name p in
  let i := PyStr.rfind "."%char nm in
  if (0 <? i) && (i <? PyStr.len nm - 1) then PyStr.slice_to i nm else nm.

(** [p / q] for a path [q]: an absolute [q] replaces [p]. *)
Definition joinpath (p q : Path) : Path :=
  if String.eqb (root q) "" then mkPath (root p) (segs p ++ segs q) else q.

(** [p / s] for a string [s] *)
Definition div (p : Path) (s : string) : Path := joinpath p (of_string s).

Fixpoint strip_prefix (pre l : list string) : option (list string) :=
  match pre, l with
  | [], _ => Some l
  | x :: pre', y :: l' => if String.eqb x y then strip_prefix pre' l' else None
  | _ :: _, [] => None
  end.

(** [p.relative_to(other)]; [None] stands for the [ValueError]. *)
Definition relative_to (p other : Path) : option Path :=
  if String.eqb (root p) (root other) then
    match strip_prefix (segs other) (segs p) with
    | Some rest => Some (mkPath "" rest)
    | None => None
    end
  else None.

Definition eqb (p q : Path) : bool :=
  String.eqb (root p) (root q) &&
  (if list_eq_dec string_dec (segs p) (segs q) then true else false).

(** The invariant of the paths [Path(s)] and [/] build: no segment
    holds a slash, is empty or is ["."]. *)
Definition wf_seg (x : string) : bool :=
  negb (PyStr.contains sep x) && keep_seg x.

Definition wf (p : Path) : bool := forallb wf_seg (segs p).

End Pathlib.
Import Pathlib.

Declare Scope path_scope.
Delimit Scope path_scope with path.
Infix "//" := Pathlib.div (at level 40, left associativity) : path_scope.

(** ** PositionCalculator *)

Definition default_margin : Z := 16.

(** [compute_text_position(img_size, text_size, position, margin=16)] *)
Definition compute_text_position (img_size text_size : Z * Z)
    (position : string) (margin : Z) : Z * Z :=
  let '(img_w, img_h) := img_size in
  let '(text_w, text_h) := text_size in
  if String.eqb position "top-left" then (margin, margin)
  else if String.eqb position "top-right" then (img_w - text_w - margin, margin)
  else if String.eqb position "center" then
    ((img_w - text_w) / 2, (img_h - text_h) / 2)
  else if String.eqb position "bottom-left" then (margin, img_h - text_h - margin)
  else (* bottom-right *) (img_w - text_w - margin, img_h - text_h - margin).


(** ** Python exceptions and results *)

(** An exception object: the names of the classes it is an instance of
    (its own class first) and its [str()]. *)
Record Exception := mkException {
  exc_types : list string;
  exc_str : string
}.

Definition isinstance (e : Exception) (cls : string) : bool :=
  existsb (String.eqb cls) (exc_types e).

Definition ValueError (msg : string) : Exception :=
  mkException ["ValueError"; "Exception"] msg.

Definition OSError (msg : string) : Exception :=
  mkException ["OSError"; "Exception"] msg.

(** The outcome of a call that may raise. *)
Definition Res (A : Type) : Type := (Exception + A)%type.

Definition res_bind {A B} (r : Res A) (k : A -> Res B) : Res B :=
  match r with
  | inl e => inl e
  | inr a => k a
  end.

Declare Scope res_scope.
Delimit Scope res_scope with res.
Notation "x <- c ;; k" := (res_bind c (fun x => k))
  (at level 61, c at next level, right associativity) : res_scope.

(** ** datetime *)

Record datetime := mkDatetime {
  year : Z; month : Z; day : Z;
  hour : Z; minute : Z; second : Z
}.

Definition is_leap (y : Z) : bool :=
  (y mod 4 =? 0) && (negb (y mod 100 =? 0) || (y mod 400 =? 0)).

Definition days_in_month (y m : Z) : Z :=
  if m =? 2 then (if is_leap y then 29 else 28)
  else if (m =? 4) || (m =? 6) || (m =? 9) || (m =? 11) then 30
  else 31.

(** The invariant of the class [datetime]: every instance is a date of
    the proleptic Gregorian calendar with a year in [1, 9999]. *)
Definition datetime_ok (d : datetime) : bool :=
  (1 <=? year d) && (year d <=? 9999) &&
  (1 <=? month d) && (month d <=? 12) &&
  (1 <=? day d) && (day d <=? days_in_month (year d) (month d)) &&
  (0 <=? hour d) && (hour d <=? 23) &&
  (0 <=? minute d) && (minute d <=? 59) &&
  (0 <=? second d) && (second d <=? 59).

(** [str(n)] for an [int] *)
Definition str_of_int (n : Z) : string :=
  DecimalString.NilEmpty.string_of_int (Z.to_int n).

(** [str(n).zfill(width)] for [0 <= n] *)
Definition zfill (width : nat) (n : Z) : string :=
  let s := str_of_int n in
  String.concat "" (repeat "0" (width - String.length s)) ++ s.

(** [date.strftime("%Y-%m-%d")], as CPython gives it through the
    [strftime] of the C library: [%Y] is the year as a decimal number
    without padding (["999"] for the year 999), [%m] and [%d] are the
    month and the day on two digits. *)
Definition strftime_Y_m_d (d : datetime) : string :=
  str_of_int (year d) ++ "-" ++ zfill 2 (month d) ++ "-" ++ zfill 2 (day d).

(** [format_date(date)] *)
Definition format_date (date : datetime) : string := strftime_Y_m_d date.

Definition is_digit (c : ascii) : bool :=
  let n := nat_of_ascii c in (Nat.leb 48 n && Nat.leb n 57)%bool.

(** [n] characters, all of them digits. *)
Definition digits (n : nat) (s : string) : bool :=
  (Nat.eqb (String.length s) n && forallb is_digit (list_ascii_of_string s))%bool.

(** The shape ["YYYY-MM-DD"]: ten characters, digits but for the dashes
    at index 4 and 7. *)
Definition is_YYYY_MM_DD (s : string) : bool :=
  match list_ascii_of_string s with
  | [y1; y2; y3; y4; d1; m1; m2; d2; a1; a2] =>
      is_digit y1 && is_digit y2 && is_digit y3 && is_digit y4 &&
      Ascii.eqb d1 "-" && is_digit m1 && is_digit m2 &&
      Ascii.eqb d2 "-" && is_digit a1 && is_digit a2
  | _ => false
  end.

(** ** The collaborators: Python library, file system, Pillow *)

(** A value of the EXIF dictionary: text, bytes, or any other object,
    given by its truth value and its [str()]. *)
Inductive ExifValue :=
| VStr (s : string)
| VBytes (b : string)
| VOther (truthy : bool) (text : string).

Class Platform := {
  World : Type;        (* the file system *)
  Image : Type;
  Font : Type;
  Timestamp : Type;    (* the float of [st_mtime] *)
  (* Python library *)
  strptime : string -> string -> Res datetime;
  bytes_decode_utf8_ignore : string -> Res string;
  fromtimestamp : Timestamp -> Res datetime;
  (* pathlib on the file system *)
  path_exists : World -> Path -> bool;
  path_is_file : World -> Path -> bool;
  path_stat_mtime : World -> Path -> Res Timestamp;
  path_mkdir_parents : Path -> World -> Res unit * World;
  (* Pillow *)
  Image_open : Path -> World -> Res Image * World;
  Image_close : Image -> World -> World;
  Image_getexif : Image -> Res (list (Z * ExifValue));
  ExifTags_TAGS : Z -> option string;
  Image_mode : Image -> string;
  Image_size : Image -> Z * Z;
  Image_convert : Image -> string -> Res Image;
  Image_new : string -> Z * Z -> list Z -> Res Image;
  ImageDraw_textbbox : Image -> Z * Z -> string -> Font -> Res (Z * Z * Z * Z);
  ImageDraw_text : Image -> Z * Z -> string -> Font -> list Z -> Res Image;
  Image_alpha_composite : Image -> Image -> Res Image;
  ImageColor_getrgb : string -> Res (list Z);
  ImageFont_truetype : World -> string -> Z -> Res Font;
  ImageFont_load_default : World -> Res Font;
  Image_save : Image -> Path -> option Z -> World -> Res unit * World
}.

(** The command line, as [parse_args] returns it. *)
Record Args := mkArgs {
  arg_input_path : string;
  arg_font_size : Z;
  arg_color : string;
  arg_position : string;
  arg_opacity : Z;
  arg_font_path : option string
}.

Section Program.

Context {P : Platform}.

(** *** The state of a run and its monad *)

Record State := mkState {
  fs : World;
  stderr : list string;     (* lines printed to [sys.stderr] *)
  stdout : list string      (* lines printed to [sys.stdout] *)
}.

(** A computation returns or raises, and leaves a state either way. *)
Definition M (A : Type) : Type := State -> Res A * State.

Definition ret {A} (a : A) : M A := fun s => (inr a, s).

Definition raise {A} (e : Exception) : M A := fun s => (inl e, s).

Definition bind {A B} (m : M A) (k : A -> M B) : M B :=
  fun s =>
    match m s with
    | (inl e, s') => (inl e, s')
    | (inr a, s') => k a s'
    end.

(** [try: m  except Exception as e: h e] *)
Definition try_except {A} (m : M A) (h : Exception -> M A) : M A :=
  fun s =>
    match m s with
    | (inl e, s') => h e s'
    | (inr a, s') => (inr a, s')
    end.

(** A call that reads the file system. *)
Definition reading {A} (f : World -> Res A) : M A := fun s => (f (fs s), s).

(** A call that changes the file system. *)
Definition writing {A} (f : World -> Res A * World) : M A :=
  fun s =>
    let '(r, w) := f (fs s) in
    (r, mkState w (stderr s) (stdout s)).

Definition lift {A} (r : Res A) : M A := fun s => (r, s).

(** A question to the file system that cannot fail. *)
Definition query {A} (f : World -> A) : M A := fun s => (inr (f (fs s)), s).

Definition print_stderr (line : string) : M unit :=
  fun s => (inr tt, mkState (fs s) (stderr s ++ [line]) (stdout s)).

Definition print_stdout (line : string) : M unit :=
  fun s => (inr tt, mkState (fs s) (stderr s) (stdout s ++ [line])).

End Program.

Declare Scope prog_scope.
Delimit Scope prog_scope with prog.
Notation "x <- c ;; k" := (bind c (fun x => k))
  (at level 61, c at next level, right associativity) : prog_scope.
Notation "c ;; k" := (bind c (fun _ => k))
  (at level 61, right associativity) : prog_scope.

(** ** The program *)

(** A key of [tag_map]: the name [ExifTags.TAGS] gives the tag, or the
    numeric tag itself when it has none. *)
Inductive TagKey :=
| KName (n : string)
| KTag (t : Z).

Definition TagKey_eqb (a b : TagKey) : bool :=
  match a, b with
  | KName x, KName y => String.eqb x y
  | KTag x, KTag y => Z.eqb x y
  | _, _ => false
  end.

(** [d[k] = v] on a dictionary kept as an association list. *)
Fixpoint dict_set (d : list (TagKey * ExifValue)) (k : TagKey) (v : ExifValue)
  : list (TagKey * ExifValue) :=
  match d with
  | [] => [(k, v)]
  | (k', v') :: r =>
      if TagKey_eqb k k' then (k', v) :: r else (k', v') :: dict_set r k v
  end.

(** [d.get(k)] *)
Fixpoint dict_get (d : list (TagKey * ExifValue)) (k : TagKey) : option ExifValue :=
  match d with
  | [] => None
  | (k', v') :: r => if TagKey_eqb k k' then Some v' else dict_get r k
  end.

(** [bool(value)] *)
Definition truthy (v : ExifValue) : bool :=
  match v with
  | VStr s => negb (String.eqb s "")
  | VBytes b => negb (String.eqb b "")
  | VOther t _ => t
  end.

Section Watermark.

Context {P : Platform}.
Local Open Scope prog_scope.
Local Open Scope path_scope.

(** [find_output_dir(input_path)] *)
Definition find_output_dir (w : World) (input_path : Path) : Path :=
  let base_dir :=
    if path_is_file w input_path then parent input_path else input_path in
  base_dir // (name base_dir ++ "_watermark").

(** [{ExifTags.TAGS.get(tag, tag): value for tag, value in exif.items()}] *)
Definition tag_map_of (exif : list (Z * ExifValue)) : list (TagKey * ExifValue) :=
  fold_left
    (fun d '(tag, value) =>
       dict_set d
         (match ExifTags_TAGS tag with Some n => KName n | None => KTag tag end)
         value)
    exif [].

Definition datetime_keys : list string :=
  ["DateTimeOriginal"; "DateTimeDigitized"; "DateTime"].

Definition datetime_formats : list string :=
  ["%Y:%m:%d %H:%M:%S"; "%Y-%m-%d %H:%M:%S"; "%Y:%m:%d"; "%Y-%m-%d"].

(** Lines 49-54: bytes are decoded, then [str(value)]. *)
Definition value_text (v : ExifValue) : Res string :=
  match v with
  | VStr s => inr s
  | VBytes b => bytes_decode_utf8_ignore b
  | VOther _ t => inr t
  end.

(** The loop over the formats (lines 55-59): [inr (Some d)] is the
    [return], [inr None] the end of the loop, [inl e] an exception
    other than [ValueError]. *)
Fixpoint try_formats (value : string) (fmts : list string)
  : Res (option datetime) :=
  match fmts with
  | [] => inr None
  | fmt :: rest =>
      match strptime value fmt with
      | inr d => inr (Some d)
      | inl e =>
          if isinstance e "ValueError" then try_formats value rest
          else inl e
      end
  end.

(** The loop over the keys (lines 44-60). *)
Fixpoint scan_keys (tag_map : list (TagKey * ExifValue)) (keys : list string)
  : Res (option datetime) :=
  match keys with
  | [] => inr None
  | key :: rest =>
      match dict_get tag_map (KName key) with
      | None => scan_keys tag_map rest
      | Some value =>
          if negb (truthy value) then scan_keys tag_map rest
          else
            match value_text value with
            | inl _ => scan_keys tag_map rest
            | inr value =>
                match try_formats value datetime_formats with
                | inl e => inl e
                | inr (Some d) => inr (Some d)
                | inr None => scan_keys tag_map rest
                end
            end
      end
  end.

(** The body of the [try] of [get_exif_datetime]. *)
Definition get_exif_datetime_body (image : Image) : Res (option datetime) :=
  (exif <- Image_getexif image ;;
   match exif with
   | [] => inr None
   | _ => scan_keys (tag_map_of exif) datetime_keys
   end)%res.

(** [get_exif_datetime(image)] *)
Definition get_exif_datetime (image : Image) : option datetime :=
  match get_exif_datetime_body image with
  | inr r => r
  | inl _ => None
  end.

(** A key that gives no date: absent, empty, not decodable, or a text
    every format refuses with a [ValueError]. *)
Definition yields_nothing (tag_map : list (TagKey * ExifValue)) (key : string)
  : bool :=
  match dict_get tag_map (KName key) with
  | None => true
  | Some value =>
      if negb (truthy value) then true
      else
        match value_text value with
        | inl _ => true
        | inr text =>
            match try_formats text datetime_formats with
            | inr None => true
            | _ => false
            end
        end
  end.

(** A format that refuses the text with a [ValueError]. *)
Definition refuses (text fmt : string) : bool :=
  match strptime text fmt with
  | inl e => isinstance e "ValueError"
  | inr _ => false
  end.

(** The resolver as the specification words it: the first present,
    non-empty value among the ordered keys is the one used, and the
    formats are tried on that value. *)
Fixpoint first_present_value (tag_map : list (TagKey * ExifValue))
    (keys : list string) : option ExifValue :=
  match keys with
  | [] => None
  | key :: rest =>
      match dict_get tag_map (KName key) with
      | Some value =>
          if truthy value then Some value
          else first_present_value tag_map rest
      | None => first_present_value tag_map rest
      end
  end.

Definition first_value_datetime (image : Image) : option datetime :=
  match Image_getexif image with
  | inr exif =>
      match first_present_value (tag_map_of exif) datetime_keys with
      | Some value =>
          match value_text value with
          | inr text =>
              match try_formats text datetime_formats with
              | inr r => r
              | inl _ => None
              end
          | inl _ => None
          end
      | None => None
      end
  | inl _ => None
  end.

(** [get_file_mtime(path)] *)
Definition get_file_mtime (path : Path) : M datetime :=
  t <- reading (fun w => path_stat_mtime w path) ;;
  lift (fromtimestamp t).

(** [load_font(font_path, font_size)] *)
Definition load_font (font_path : option string) (font_size : Z) : M Font :=
  match font_path with
  | Some fp =>
      if negb (String.eqb fp "") then
        try_except (reading (fun w => ImageFont_truetype w fp font_size))
                   (fun _ => reading ImageFont_load_default)
      else reading ImageFont_load_default
  | None => reading ImageFont_load_default
  end.

(** Lines 104-107: the colour, white when it does not parse. *)
Definition parse_color (color : string) : list Z :=
  match ImageColor_getrgb color with
  | inr fill_color => fill_color
  | inl _ => [255; 255; 255]
  end.

(** [draw_watermark(image, text, color, opacity, position, font)].
    The [ImageDraw.Draw] object is identified with the layer it draws
    on; each drawing call returns the layer it has changed. *)
Definition draw_watermark (image : Image) (text color : string) (opacity : Z)
    (position : string) (font : Font) : Res Image :=
  (image <- (if negb (String.eqb (Image_mode image) "RGBA")
             then Image_convert image "RGBA" else inr image) ;;
   text_layer <- Image_new "RGBA" (Image_size image) [0; 0; 0; 0] ;;
   bbox <- ImageDraw_textbbox text_layer (0, 0) text font ;;
   let '(b0, b1, b2, b3) := bbox in
   let text_w := b2 - b0 in
   let text_h := b3 - b1 in
   let '(x, y) :=
     compute_text_position (Image_size image) (text_w, text_h) position
       default_margin in
   let fill_color := parse_color color in
   let fill := (fill_color ++ [Z.max 0 (Z.min 255 opacity)])%list in
   let shadow_offset := 2 in
   text_layer <- ImageDraw_text text_layer (x + shadow_offset, y + shadow_offset)
                   text font [0; 0; 0; Z.min 255 opacity] ;;
   text_layer <- ImageDraw_text text_layer (x, y) text font fill ;;
   Image_alpha_composite image text_layer)%res.

(** Lines 119-121: the date of the metadata, or else of the file. *)
Definition resolve_date (im : Image) (input_file : Path) : M datetime :=
  match get_exif_datetime im with
  | None => get_file_mtime input_file
  | Some date_dt => ret date_dt
  end.

(** Lines 127-128: the name of the written file. *)
Definition out_name (input_file : Path) : string :=
  let ext := PyStr.lower (suffix input_file) in
  stem input_file ++ "_wm" ++ (if String.eqb ext ".png" then ".png" else ".jpg").

(** [with Image.open(input_file) as im: body]: the image is closed when
    the body is left, by a [return] or by an exception. *)
Definition with_Image_open {A} (input_file : Path) (body : Image -> M A) : M A :=
  im <- writing (Image_open input_file) ;;
  (fun s =>
     let '(r, s') := body im s in
     (r, mkState (Image_close im (fs s')) (stderr s') (stdout s'))).

(** The body of the [try] of [process_image_file]. *)
Definition process_image_body (input_file output_dir : Path) (args : Args)
  : M (option Path) :=
  with_Image_open input_file (fun im =>
    date_dt <- resolve_date im input_file ;;
    let text := format_date date_dt in
    font <- load_font (arg_font_path args) (arg_font_size args) ;;
    out_rgba <- lift (draw_watermark im text (arg_color args) (arg_opacity args)
                        (arg_position args) font) ;;
    writing (path_mkdir_parents output_dir) ;;
    let out_name := out_name input_file in
    (if PyStr.endswith (PyStr.lower out_name) ".jpg"
        || PyStr.endswith (PyStr.lower out_name) ".jpeg"
     then
       out_img <- lift (Image_convert out_rgba "RGB") ;;
       writing (Image_save out_img (output_dir // out_name) (Some 92))
     else
       writing (Image_save out_rgba (output_dir // out_name) None)) ;;
    ret (Some (output_dir // out_name))).

(** [process_image_file(input_file, output_dir, args)] *)
Definition process_image_file (input_file output_dir : Path) (args : Args)
  : M (option Path) :=
  try_except (process_image_body input_file output_dir args)
    (fun e =>
       print_stderr ("Failed to process " ++ to_string input_file ++ ": "
                     ++ exc_str e) ;;
       ret None).

(** The state with the line the handler of [process_image_file] prints
    for the exception [e]. *)
Definition failure_logged (input_file : Path) (e : Exception) (s : State) : State :=
  mkState (fs s)
    (stderr s
     ++ [("Failed to process " ++ to_string input_file ++ ": " ++ exc_str e)%string])%list
    (stdout s).

(** [is_image_file(path)] *)
Definition is_image_file (path : Path) : bool :=
  existsb (String.eqb (PyStr.lower (suffix path)))
    [".jpg"; ".jpeg"; ".png"; ".bmp"; ".tiff"; ".webp"].

(** The counter after [if process_image_file(...): processed += 1]. *)
Definition count (r : option Path) (processed : Z) : Z :=
  match r with
  | Some _ => processed + 1
  | None => processed
  end.

(** The loop over the files of one directory (lines 165-170). *)
Fixpoint files_loop (root_path rel output_dir : Path) (args : Args)
    (files : list string) (processed : Z) : M Z :=
  match files with
  | [] => ret processed
  | name :: rest =>
      let p := root_path // name in
      if is_image_file p then
        let out_dir := joinpath output_dir rel in
        r <- process_image_file p out_dir args ;;
        files_loop root_path rel output_dir args rest (count r processed)
      else files_loop root_path rel output_dir args rest processed
  end.

(** The loop over what [os.walk(input_path)] yields (lines 161-170):
    the triples [(root, dirs, files)], in the order of the walk. *)
Fixpoint walk_loop (input_path output_dir : Path) (args : Args)
    (walk : list (string * list string * list string)) (processed : Z) : M Z :=
  match walk with
  | [] => ret processed
  | (root, _, files) :: more =>
      let root_path := of_string root in
      match relative_to root_path input_path with
      | None => raise (ValueError (root ++ " is not in the subpath of "
                                   ++ to_string input_path))
      | Some rel =>
          processed <- files_loop root_path rel output_dir args files processed ;;
          walk_loop input_path output_dir args more processed
      end
  end.

Inductive Exit :=
| SystemExit (code : Z)
| Returned.

(** [main()], for the arguments [parse_args()] returns and the triples
    [os.walk] yields when the input is a directory. *)
Definition main (args : Args) (walk : list (string * list string * list string))
  : M Exit :=
  let input_path := of_string (arg_input_path args) in
  found <- query (fun w => path_exists w input_path) ;;
  if negb found then
    print_stderr ("Input path not found: " ++ to_string input_path) ;;
    ret (SystemExit 1)
  else
    output_dir <- query (fun w => find_output_dir w input_path) ;;
    is_file <- query (fun w => path_is_file w input_path) ;;
    processed <-
      (if is_file then
         if is_image_file input_path then
           r <- process_image_file input_path output_dir args ;;
           ret (count r 0)
         else
           print_stderr ("Not an image file: " ++ to_string input_path) ;;
           ret 0
       else walk_loop input_path output_dir args walk 0) ;;
    print_stdout ("Done. Processed " ++ str_of_int processed
                  ++ " image(s). Output: " ++ to_string output_dir) ;;
    ret Returned.

End Watermark.

(** ** The functions of the Python library, on ASCII text *)

Module CPython.

(** *** [datetime.strptime] for the directives the program uses

    [_strptime] turns the format into a regular expression, matches it
    at the start of the text, and refuses text left over.  The
    alternatives of a directive are tried in the order of its
    expression, and white space in the format stands for [\s+].
    Digits and white space are the ASCII ones. *)

Inductive cls :=
| Digit                        (* [\d] *)
| Range (lo hi : ascii)        (* [[lo-hi]] *)
| Char (c : ascii).

Definition in_cls (k : cls) (a : ascii) : bool :=
  match k with
  | Digit => is_digit a
  | Range lo hi =>
      (Nat.leb (nat_of_ascii lo) (nat_of_ascii a)
       && Nat.leb (nat_of_ascii a) (nat_of_ascii hi))%bool
  | Char c => Ascii.eqb a c
  end.

Definition directive (c : ascii) : option (list (list cls)) :=
  if Ascii.eqb c "d" then
    Some [[Char "3"; Range "0" "1"]; [Range "1" "2"; Digit];
          [Char "0"; Range "1" "9"]; [Range "1" "9"]; [Char " "; Range "1" "9"]]
  else if Ascii.eqb c "H" then
    Some [[Char "2"; Range "0" "3"]; [Range "0" "1"; Digit]; [Digit]]
  else if Ascii.eqb c "m" then
    Some [[Char "1"; Range "0" "2"]; [Char "0"; Range "1" "9"]; [Range "1" "9"]]
  else if Ascii.eqb c "M" then
    Some [[Range "0" "5"; Digit]; [Digit]]
  else if Ascii.eqb c "S" then
    Some [[Char "6"; Range "0" "1"]; [Range "0" "5"; Digit]; [Digit]]
  else if Ascii.eqb c "Y" then
    Some [[Digit; Digit; Digit; Digit]]
  else None.

Inductive token :=
| TDir (c : ascii) (alts : list (list cls))
| TSpace
| TLit (c : ascii).

Definition is_space (a : ascii) : bool :=
  let n := nat_of_ascii a in
  ((Nat.leb 9 n && Nat.leb n 13) || (Nat.leb 28 n && Nat.leb n 32))%bool.

(** The tokens of a format; [None] for a directive outside the table
    or a stray [%]. *)
Fixpoint tokens (fmt : list ascii) : option (list token) :=
  match fmt with
  | [] => Some []
  | "%"%char :: rest =>
      match rest with
      | [] => None
      | c :: rest' =>
          match directive c, tokens rest' with
          | Some alts, Some ts => Some (TDir c alts :: ts)
          | _, _ => None
          end
      end
  | a :: rest =>
      match tokens rest with
      | Some ts => Some ((if is_space a then TSpace else TLit a) :: ts)
      | None => None
      end
  end.

(** A run of white space in the format is one [\s+]. *)
Fixpoint collapse (ts : list token) : list token :=
  match ts with
  | TSpace :: rest =>
      match collapse rest with
      | TSpace :: rest' => TSpace :: rest'
      | rest' => TSpace :: rest'
      end
  | t :: rest => t :: collapse rest
  | [] => []
  end.

Record fields := mkFields {
  fY : Z; fm : Z; fd : Z; fH : Z; fM : Z; fS : Z
}.

Definition no_fields : fields := mkFields 1900 1 1 0 0 0.

Definition set_field (c : ascii) (v : Z) (f : fields) : fields :=
  if Ascii.eqb c "Y" then mkFields v (fm f) (fd f) (fH f) (fM f) (fS f)
  else if Ascii.eqb c "m" then mkFields (fY f) v (fd f) (fH f) (fM f) (fS f)
  else if Ascii.eqb c "d" then mkFields (fY f) (fm f) v (fH f) (fM f) (fS f)
  else if Ascii.eqb c "H" then mkFields (fY f) (fm f) (fd f) v (fM f) (fS f)
  else if Ascii.eqb c "M" then mkFields (fY f) (fm f) (fd f) (fH f) v (fS f)
  else if Ascii.eqb c "S" then mkFields (fY f) (fm f) (fd f) (fH f) (fM f) v
  else f.

(** [int(text)] for digits, with the white space around them dropped. *)
Definition int_of (text : list ascii) : Z :=
  fold_left
    (fun acc a => if is_digit a then 10 * acc + Z.of_nat (nat_of_ascii a - 48) else acc)
    text 0.

Fixpoint match_cls (ks : list cls) (s : list ascii)
  : option (list ascii * list ascii) :=
  match ks, s with
  | [], _ => Some ([], s)
  | k :: ks', a :: s' =>
      if in_cls k a then
        match match_cls ks' s' with
        | Some (m, rest) => Some (a :: m, rest)
        | None => None
        end
      else None
  | _ :: _, [] => None
  end.

Fixpoint first_alt {R} (alts : list (list cls))
    (k : list ascii -> list ascii -> option R) (s : list ascii) : option R :=
  match alts with
  | [] => None
  | alt :: more =>
      match match_cls alt s with
      | Some (m, rest) =>
          match k m rest with
          | Some r => Some r
          | None => first_alt more k s
          end
      | None => first_alt more k s
      end
  end.

(** The first match of the expression at the start of [s], in the
    order a backtracking matcher finds it: the fields and what is left
    of the text. *)
Fixpoint match_tokens (ts : list token) (s : list ascii) (f : fields)
  : option (fields * list ascii) :=
  match ts with
  | [] => Some (f, s)
  | TLit c :: ts' =>
      match s with
      | a :: s' =>
          if Ascii.eqb (PyStr.lower_ascii a) (PyStr.lower_ascii c)
          then match_tokens ts' s' f else None
      | [] => None
      end
  | TSpace :: ts' =>
      (fix spaces (s : list ascii) : option (fields * list ascii) :=
         match s with
         | a :: s' =>
             if is_space a then
               match spaces s' with
               | Some r => Some r
               | None => match_tokens ts' s' f
               end
             else None
         | [] => None
         end) s
  | TDir c alts :: ts' =>
      first_alt alts (fun m rest => match_tokens ts' rest (set_field c (int_of m) f)) s
  end.

Definition strptime (data_string format : string) : Res datetime :=
  match tokens (list_ascii_of_string format) with
  | None => inl (ValueError ("bad directive in format '" ++ format ++ "'"))
  | Some ts =>
      match match_tokens (collapse ts) (list_ascii_of_string data_string) no_fields with
      | None =>
          inl (ValueError ("time data '" ++ data_string
                           ++ "' does not match format '" ++ format ++ "'"))
      | Some (f, []) =>
          if (fY f <? 1) then
            inl (ValueError ("year " ++ str_of_int (fY f) ++ " is out of range"))
          else if (days_in_month (fY f) (fm f) <? fd f) then
            inl (ValueError "day is out of range for month")
          else if (59 <? fS f) then
            inl (ValueError "second must be in 0..59")
          else inr (mkDatetime (fY f) (fm f) (fd f) (fH f) (fM f) (fS f))
      | Some (_, rest) =>
          inl (ValueError ("unconverted data remains: "
                           ++ string_of_list_ascii rest))
      end
  end.

(** *** [bytes.decode("utf-8", errors="ignore")]

    An ill-formed sequence is dropped: a byte that cannot start a
    sequence alone, a sequence cut by a wrong continuation byte up to
    that byte, a sequence cut by the end of the data whole. *)

Definition cont (b : N) : bool := ((128 <=? b) && (b <? 192))%N.

(** The second byte of a three-byte and of a four-byte sequence. *)
Definition second3 (b c2 : N) : bool :=
  (cont c2 && negb ((b =? 224) && (c2 <? 160)) && negb ((b =? 237) && (160 <=? c2)))%N.
Definition second4 (b c2 : N) : bool :=
  (cont c2 && negb ((b =? 240) && (c2 <? 144)) && negb ((b =? 244) && (144 <=? c2)))%N.

Fixpoint utf8_ignore (bs : list N) : list N :=
  match bs with
  | [] => []
  | b :: tl =>
      if (b <? 128)%N then b :: utf8_ignore tl
      else if (b <? 194)%N then utf8_ignore tl
      else if (b <? 224)%N then
        match tl with
        | [] => []
        | c2 :: tl2 => if cont c2 then b :: c2 :: utf8_ignore tl2 else utf8_ignore tl
        end
      else if (b <? 240)%N then
        match tl with
        | [] => []
        | c2 :: tl2 =>
            if negb (second3 b c2) then utf8_ignore tl
            else
              match tl2 with
              | [] => []
              | c3 :: tl3 =>
                  if cont c3 then b :: c2 :: c3 :: utf8_ignore tl3
                  else utf8_ignore tl2
              end
        end
      else if (b <? 245)%N then
        match tl with
        | [] => []
        | c2 :: tl2 =>
            if negb (second4 b c2) then utf8_ignore tl
            else
              match tl2 with
              | [] => []
              | c3 :: tl3 =>
                  if negb (cont c3) then utf8_ignore tl2
                  else
                    match tl3 with
                    | [] => []
                    | c4 :: tl4 =>
                        if cont c4 then b :: c2 :: c3 :: c4 :: utf8_ignore tl4
                        else utf8_ignore tl3
                    end
              end
        end
      else utf8_ignore tl
  end.

Definition bytes_decode_utf8_ignore (b : string) : Res string :=
  inr (string_of_list_ascii
         (map ascii_of_N (utf8_ignore (map N_of_ascii (list_ascii_of_string b))))).

End CPython.

(** ** A simulated platform

    An implementation of the interface on which the program runs inside
    Rocq: a file system kept as a table of nodes, images kept as the
    list of the texts drawn on them, and the Python functions of
    [CPython]. *)

Module Sim.

Record font := mkFont {
  font_file : string;      (* [""] for the built-in font *)
  font_px : Z
}.

(** One call of [ImageDraw.text]. *)
Record drawn := mkDrawn {
  at_xy : Z * Z;
  drawn_text : string;
  drawn_fill : list Z
}.

Record image := mkImage {
  mode : string;
  size : Z * Z;
  exif : list (Z * ExifValue);
  texts : list drawn
}.

Inductive content :=
| Photo (im : image)
| FontData
| Junk.

Inductive node :=
| Dir
| File (c : content) (mtime : datetime).

Definition world := list (Path * node).

Fixpoint lookup (w : world) (p : Path) : option node :=
  match w with
  | [] => None
  | (q, n) :: r => if Pathlib.eqb p q then Some n else lookup r p
  end.

Fixpoint store (w : world) (p : Path) (n : node) : world :=
  match w with
  | [] => [(p, n)]
  | (q, m) :: r => if Pathlib.eqb p q then (q, n) :: r else (q, m) :: store r p n
  end.

Definition exists_ (w : world) (p : Path) : bool :=
  match lookup w p with Some _ => true | None => false end.

Definition is_file (w : world) (p : Path) : bool :=
  match lookup w p with Some (File _ _) => true | _ => false end.

Definition is_dir (w : world) (p : Path) : bool :=
  match lookup w p with Some Dir => true | _ => false end.

Definition FileNotFoundError (p : Path) : Exception :=
  mkException ["FileNotFoundError"; "OSError"; "Exception"]
    ("[Errno 2] No such file or directory: '" ++ to_string p ++ "'").

Definition stat_mtime (w : world) (p : Path) : Res datetime :=
  match lookup w p with
  | Some (File _ t) => inr t
  | Some Dir => inr (mkDatetime 1970 1 1 0 0 0)
  | None => inl (FileNotFoundError p)
  end.

(** The path and its ancestors, shortest first. *)
Fixpoint prefixes (r : string) (done todo : list string) : list Path :=
  match todo with
  | [] => []
  | x :: rest => mkPath r (done ++ [x]) :: prefixes r (done ++ [x]) rest
  end.

Fixpoint make_dirs (ps : list Path) (w : world) : Res unit * world :=
  match ps with
  | [] => (inr tt, w)
  | p :: rest =>
      match lookup w p with
      | Some Dir => make_dirs rest w
      | Some (File _ _) =>
          (inl (mkException ["FileExistsError"; "OSError"; "Exception"]
                  ("[Errno 17] File exists: '" ++ to_string p ++ "'")), w)
      | None => make_dirs rest (store w p Dir)
      end
  end.

Definition mkdir_parents (p : Path) (w : world) : Res unit * world :=
  make_dirs (prefixes (root p) [] (segs p)) w.

Definition open (p : Path) (w : world) : Res image * world :=
  match lookup w p with
  | Some (File (Photo im) _) => (inr im, w)
  | Some (File _ _) =>
      (inl (mkException ["UnidentifiedImageError"; "OSError"; "Exception"]
              ("cannot identify image file '" ++ to_string p ++ "'")), w)
  | Some Dir =>
      (inl (mkException ["IsADirectoryError"; "OSError"; "Exception"]
              ("[Errno 21] Is a directory: '" ++ to_string p ++ "'")), w)
  | None => (inl (FileNotFoundError p), w)
  end.

Definition TAGS (tag : Z) : option string :=
  if tag =? 306 then Some "DateTime"
  else if tag =? 36867 then Some "DateTimeOriginal"
  else if tag =? 36868 then Some "DateTimeDigitized"
  else if tag =? 271 then Some "Make"
  else if tag =? 272 then Some "Model"
  else None.

Definition convert (im : image) (m : string) : Res image :=
  inr (mkImage m (size im) (exif im) (texts im)).

Definition new (m : string) (sz : Z * Z) (fill : list Z) : Res image :=
  inr (mkImage m sz [] []).

(** Every character is half the pixel size wide. *)
Definition textbbox (layer : image) (xy : Z * Z) (text : string) (f : font)
  : Res (Z * Z * Z * Z) :=
  let '(x, y) := xy in
  inr (x, y, x + PyStr.len text * font_px f / 2, y + font_px f).

Definition text (layer : image) (xy : Z * Z) (t : string) (f : font)
    (fill : list Z) : Res image :=
  if (Nat.eqb (List.length fill) 3 || Nat.eqb (List.length fill) 4)%bool then
    inr (mkImage (mode layer) (size layer) (exif layer)
           (texts layer ++ [mkDrawn xy t fill]))
  else
    inl (mkException ["TypeError"; "Exception"]
           "color must be int, or tuple of one, three or four elements").

Definition alpha_composite (im1 im2 : image) : Res image :=
  if (String.eqb (mode im1) "RGBA" && String.eqb (mode im2) "RGBA"
      && (fst (size im1) =? fst (size im2)) && (snd (size im1) =? snd (size im2)))%bool
  then inr (mkImage "RGBA" (size im1) (exif im1) (texts im1 ++ texts im2))
  else inl (ValueError "images do not match").

Definition hex_digit (a : ascii) : option Z :=
  let n := nat_of_ascii (PyStr.lower_ascii a) in
  if (Nat.leb 48 n && Nat.leb n 57)%bool then Some (Z.of_nat (n - 48))
  else if (Nat.leb 97 n && Nat.leb n 102)%bool then Some (Z.of_nat (n - 87))
  else None.

Definition hex_pair (a b : ascii) : option Z :=
  match hex_digit a, hex_digit b with
  | Some x, Some y => Some (16 * x + y)
  | _, _ => None
  end.

(** [ImageColor.getrgb] for [#rrggbb] and a few names. *)
Definition getrgb (c : string) : Res (list Z) :=
  let unknown := inl (ValueError ("unknown color specifier: '" ++ c ++ "'")) in
  match list_ascii_of_string (PyStr.lower c) with
  | ["#"%char; r1; r2; g1; g2; b1; b2] =>
      match hex_pair r1 r2, hex_pair g1 g2, hex_pair b1 b2 with
      | Some r, Some g, Some b => inr [r; g; b]
      | _, _, _ => unknown
      end
  | _ =>
      if String.eqb (PyStr.lower c) "white" then inr [255; 255; 255]
      else if String.eqb (PyStr.lower c) "black" then inr [0; 0; 0]
      else if String.eqb (PyStr.lower c) "red" then inr [255; 0; 0]
      else unknown
  end.

Definition truetype (w : world) (file : string) (px : Z) : Res font :=
  match lookup w (of_string file) with
  | Some (File FontData _) => inr (mkFont file px)
  | _ => inl (OSError "cannot open resource")
  end.

Definition load_default (w : world) : Res font := inr (mkFont "" 10).

(** The file is written into an existing directory; JPEG has no alpha
    channel. *)
Definition save (im : image) (p : Path) (quality : option Z) (w : world)
  : Res unit * world :=
  if negb (is_dir w (parent p) || (String.eqb (root (parent p)) "" &&
                                    match segs (parent p) with [] => true | _ => false end))%bool
  then (inl (FileNotFoundError p), w)
  else if ((PyStr.endswith (PyStr.lower (name p)) ".jpg"
            || PyStr.endswith (PyStr.lower (name p)) ".jpeg")
           && String.eqb (mode im) "RGBA")%bool
  then (inl (OSError "cannot write mode RGBA as JPEG"), w)
  else (inr tt, store w p (File (Photo im) (mkDatetime 2026 1 1 0 0 0))).

#[export] Instance platform : Platform := {|
  World := world;
  Image := image;
  Font := font;
  Timestamp := datetime;
  strptime := CPython.strptime;
  bytes_decode_utf8_ignore := CPython.bytes_decode_utf8_ignore;
  fromtimestamp := fun t => inr t;
  path_exists := exists_;
  path_is_file := is_file;
  path_stat_mtime := stat_mtime;
  path_mkdir_parents := mkdir_parents;
  Image_open := open;
  Image_close := fun _ w => w;
  Image_getexif := fun im => inr (exif im);
  ExifTags_TAGS := TAGS;
  Image_mode := mode;
  Image_size := size;
  Image_convert := convert;
  Image_new := new;
  ImageDraw_textbbox := textbbox;
  ImageDraw_text := text;
  Image_alpha_composite := alpha_composite;
  ImageColor_getrgb := getrgb;
  ImageFont_truetype := truetype;
  ImageFont_load_default := load_default;
  Image_save := save
|}.

(** The paths of the files of a world, in the order of their creation. *)
Definition file_names (w : world) : list string :=
  map (fun '(p, _) => to_string p)
      (filter (fun '(_, n) => match n with File _ _ => true | Dir => false end) w).

Definition start (w : world) : State := mkState w [] [].

End Sim.

(** ** Scenarios on the simulated platform *)

Module Scenario.

Definition noon : datetime := mkDatetime 2022 7 4 12 0 0.

Definition photo (tags : list (Z * ExifValue)) : Sim.image :=
  Sim.mkImage "RGB" (640, 480) tags [].

(** Both [DateTimeOriginal] (36867) and [DateTime] (306). *)
Definition im_both : Sim.image :=
  photo [(36867, VStr "2020:01:02 10:00:00"); (306, VStr "2021:05:05 00:00:00")].

(** No metadata at all. *)
Definition im_plain : Sim.image := photo [].

(** A [DateTimeOriginal] that is no date, and a [DateTime] that is one. *)
Definition im_unknown_original : Sim.image :=
  photo [(36867, VStr "unknown"); (306, VStr "2021:05:05 00:00:00")].

(** A [DateTime] (306) in the year 999. *)
Definition im_year_999 : Sim.image :=
  photo [(306, VStr "0999:01:02 00:00:00")].

(** [input/a.jpg] and [input/sub/b.png]. *)
Definition tree : Sim.world :=
  [ (of_string "input", Sim.Dir);
    (of_string "input/a.jpg", Sim.File (Sim.Photo im_both) noon);
    (of_string "input/sub", Sim.Dir);
    (of_string "input/sub/b.png", Sim.File (Sim.Photo im_plain) noon) ].

Definition tree_walk : list (string * list string * list string) :=
  [ ("input", ["sub"], ["a.jpg"]); ("input/sub", [], ["b.png"]) ].

(** A directory whose first file is no image, though named like one. *)
Definition album : Sim.world :=
  [ (of_string "album", Sim.Dir);
    (of_string "album/bad.jpg", Sim.File Sim.Junk noon);
    (of_string "album/c.png", Sim.File (Sim.Photo im_plain) noon) ].

Definition photos : Sim.world :=
  [ (of_string "/photos", Sim.Dir); (of_string "/photos/input", Sim.Dir) ].

Definition defaults (input : string) : Args :=
  mkArgs input 32 "#FFFFFF" "bottom-right" 220 None.

Definition canvas : Sim.image := Sim.mkImage "RGBA" (640, 480) [] [].

End Scenario.

(** ** Notions the properties are stated with *)

Section Notions.

Context {P : Platform}.
Local Open Scope path_scope.

(** A computation that prints nothing: both streams are as before. *)
Definition quiet {A} (m : M A) : Prop :=
  forall s r s', m s = (r, s') -> stderr s' = stderr s /\ stdout s' = stdout s.

(** A computation that leaves the whole state as it was. *)
Definition pure_read {A} (m : M A) : Prop :=
  forall s, snd (m s) = s.

(** The lines printed to the diagnostic stream between two states. *)
Definition new_errors (s s' : State) : Z :=
  Z.of_nat (List.length (stderr s')) - Z.of_nat (List.length (stderr s)).

(** The number of names with a recognised extension in one directory. *)
Definition recognised (root_path : Path) (files : list string) : Z :=
  Z.of_nat (List.length (filter (fun name => is_image_file (root_path // name)) files)).

(** The same over everything the walk yields. *)
Fixpoint recognised_in_walk (walk : list (string * list string * list string)) : Z :=
  match walk with
  | [] => 0
  | (root, _, files) :: more =>
      recognised (of_string root) files + recognised_in_walk more
  end.

(** Every directory the walk yields lies under the input path, as the
    directories [os.walk(input_path)] yields do. *)
Definition well_rooted (input_path : Path)
    (walk : list (string * list string * list string)) : bool :=
  forallb
    (fun '(root, _, _) =>
       match relative_to (of_string root) input_path with
       | Some _ => true
       | None => false
       end)
    walk.

(** The key under which the dictionary comprehension of
    [get_exif_datetime] files a tag. *)
Definition tag_key (tag : Z) : TagKey :=
  match ExifTags_TAGS tag with
  | Some n => KName n
  | None => KTag tag
  end.

(** The line [main] prints when it is done. *)
Definition done_line (processed : Z) (output_dir : Path) : string :=
  "Done. Processed " ++ str_of_int processed ++ " image(s). Output: "
  ++ to_string output_dir.

End Notions.

(** * Properties *)

(** ** The library functions on concrete text *)

Example path_parse_1 :
  of_string "/photos//trip/./a.JPG" = mkPath "/" ["photos"; "trip"; "a.JPG"].
Proof. reflexivity. Qed.

Example path_suffix_1 :
  (suffix (of_string "x/archive.tar.gz"), stem (of_string "x/archive.tar.gz"),
   suffix (of_string ".bashrc"), stem (of_string "a."))
  = (".gz", "archive.tar", "", "a.").
Proof. reflexivity. Qed.

Example path_str_1 :
  (to_string (of_string "a/b/"), to_string (of_string ""), to_string (of_string "//x"),
   to_string (of_string "///x"))
  = ("a/b", ".", "//x", "/x").
Proof. reflexivity. Qed.

Example strptime_1 :
  CPython.strptime "2020:01:02 10:00:00" "%Y:%m:%d %H:%M:%S"
  = inr (mkDatetime 2020 1 2 10 0 0).
Proof. reflexivity. Qed.

Example strptime_2 :
  (CPython.strptime "2020:1:2   7:5:9" "%Y:%m:%d %H:%M:%S",
   CPython.strptime "2021-02-29" "%Y-%m-%d",
   CPython.strptime "2020-02-29" "%Y-%m-%d",
   CPython.strptime "2020:12:011" "%Y:%m:%d",
   CPython.strptime "2020:01:02 10:00:00" "%Y:%m:%d")
  = (inr (mkDatetime 2020 1 2 7 5 9),
     inl (ValueError "day is out of range for month"),
     inr (mkDatetime 2020 2 29 0 0 0),
     inl (ValueError "unconverted data remains: 1"),
     inl (ValueError "unconverted data remains:  10:00:00")).
Proof. reflexivity. Qed.

Example format_date_1 :
  (format_date (mkDatetime 2020 1 2 10 0 0), format_date (mkDatetime 1999 12 31 23 59 59))
  = ("2020-01-02", "1999-12-31").
Proof. reflexivity. Qed.

Example utf8_ignore_1 :
  map CPython.utf8_ignore
    [ [255; 50; 48]; [225; 128]; [225; 128; 65]; [225; 65]; [240; 144; 128; 65];
      [195; 169]; [237; 160; 128]; [192; 128]; [244; 144; 128; 128; 120] ]%N
  = [ [50; 48]; []; [65]; [65]; [65]; [195; 169]; []; []; [120] ]%N.
Proof. reflexivity. Qed.

(** ** PositionCalculator *)

(** C6. With the margin 16, [compute_text_position] returns for every
    image size [(W, H)] and text size [(w, h)]: top-left [(16, 16)];
    top-right [(W - w - 16, 16)]; center [((W - w) // 2, (H - h) // 2)],
    by floor division; bottom-left [(16, H - h - 16)]; bottom-right
    [(W - w - 16, H - h - 16)].  The sizes range over all integers and
    the coordinates are not clamped: a text larger than the image gets
    negative ones, as for a 100 x 40 text on a 10 x 10 image. *)
Theorem compute_text_position_anchors :
  forall W H w h : Z,
    compute_text_position (W, H) (w, h) "top-left" default_margin = (16, 16)
    /\ compute_text_position (W, H) (w, h) "top-right" default_margin
       = (W - w - 16, 16)
    /\ compute_text_position (W, H) (w, h) "center" default_margin
       = ((W - w) / 2, (H - h) / 2)
    /\ compute_text_position (W, H) (w, h) "bottom-left" default_margin
       = (16, H - h - 16)
    /\ compute_text_position (W, H) (w, h) "bottom-right" default_margin
       = (W - w - 16, H - h - 16)
    /\ compute_text_position (10, 10) (100, 40) "bottom-right" default_margin
       = (-106, -46)
    /\ compute_text_position (10, 10) (100, 40) "center" default_margin
       = (-45, -15).
Proof.
  intros W H w h. unfold compute_text_position, default_margin. cbn.
  repeat split; reflexivity.
Qed.

(** C10. [compute_text_position] is total over the position strings:
    every string other than "top-left", "top-right", "center" and
    "bottom-left" gives the bottom-right coordinates
    [(W - w - margin, H - h - margin)]. *)
Theorem compute_text_position_fallthrough :
  forall (W H w h margin : Z) (position : string),
    position <> "top-left" ->
    position <> "top-right" ->
    position <> "center" ->
    position <> "bottom-left" ->
    compute_text_position (W, H) (w, h) position margin
    = (W - w - margin, H - h - margin).
Proof.
  intros W H w h margin position Htl Htr Hc Hbl.
  unfold compute_text_position.
  apply String.eqb_neq in Htl, Htr, Hc, Hbl.
  rewrite Htl, Htr, Hc, Hbl. reflexivity.
Qed.

Lemma compute_text_position_fallthrough_witness :
  "middle" <> "top-left"
  /\ compute_text_position (640, 480) (120, 32) "middle" 16 = (504, 432).
Proof.
  split; [discriminate |].
  apply (compute_text_position_fallthrough 640 480 120 32 16 "middle");
    discriminate.
Defined.

(** ** Paths *)

Section PathFacts.

Local Open Scope path_scope.

Lemma contains_append (c : ascii) (a b : string) :
  PyStr.contains c (a ++ b) = (PyStr.contains c a || PyStr.contains c b)%bool.
Proof.
  induction a as [| x a IH]; simpl; [reflexivity |].
  rewrite IH. now rewrite orb_assoc.
Qed.

Lemma contains_substring (c : ascii) (s : string) :
  PyStr.contains c s = false ->
  forall n m, PyStr.contains c (substring n m s) = false.
Proof.
  induction s as [| x s IH]; intros H n m.
  - destruct n, m; reflexivity.
  - simpl in H. apply orb_false_iff in H as [Hx Hs].
    destruct n as [| n]; destruct m as [| m]; simpl; auto.
    rewrite Hx. simpl. apply IH. assumption.
Qed.

Lemma split_no_sep (c : ascii) (s : string) :
  PyStr.contains c s = false -> PyStr.split c s = [s].
Proof.
  induction s as [| x s IH]; simpl; intros H; [reflexivity |].
  apply orb_false_iff in H as [Hx Hs].
  rewrite Hx, (IH Hs). reflexivity.
Qed.

Lemma split_pieces (c : ascii) (s : string) :
  Forall (fun x => PyStr.contains c x = false) (PyStr.split c s).
Proof.
  induction s as [| x s IH]; simpl.
  - constructor; [reflexivity | constructor].
  - destruct (Ascii.eqb x c) eqn:E.
    + constructor; [reflexivity | assumption].
    + destruct (PyStr.split c s) as [| w ws].
      * constructor; [simpl; now rewrite E | constructor].
      * inversion IH; subst. constructor; [simpl; now rewrite E | assumption].
Qed.

Lemma of_string_segs_wf (s : string) :
  forallb wf_seg (filter keep_seg (PyStr.split sep s)) = true.
Proof.
  apply forallb_forall. intros x Hx.
  apply filter_In in Hx as [Hin Hk].
  unfold wf_seg. rewrite Hk, andb_true_r.
  pose proof (split_pieces sep s) as HF.
  rewrite Forall_forall in HF. now rewrite (HF x Hin).
Qed.

(** [Path(s)] is well formed. *)
Lemma of_string_wf (s : string) : wf (of_string s) = true.
Proof.
  unfold of_string. destruct (splitroot s) as [r rel]. apply of_string_segs_wf.
Qed.

Lemma joinpath_wf (p q : Path) :
  wf p = true -> wf q = true -> wf (joinpath p q) = true.
Proof.
  unfold joinpath, wf. intros Hp Hq.
  destruct (String.eqb (root q) ""); simpl; [| assumption].
  rewrite forallb_app, Hp, Hq. reflexivity.
Qed.

Lemma div_wf (p : Path) (s : string) : wf p = true -> wf (p // s) = true.
Proof. intros Hp. apply joinpath_wf; [assumption | apply of_string_wf]. Qed.

Lemma removelast_forallb {A} (f : A -> bool) (l : list A) :
  forallb f l = true -> forallb f (removelast l) = true.
Proof.
  induction l as [| x l IH]; simpl; [reflexivity |].
  intros H. apply andb_true_iff in H as [Hx Hl].
  destruct l as [| y l]; [reflexivity |].
  simpl. rewrite Hx. simpl. apply IH. assumption.
Qed.

Lemma parent_wf (p : Path) : wf p = true -> wf (parent p) = true.
Proof.
  unfold parent, wf. intros H. destruct (segs p) as [| x l] eqn:E.
  - now rewrite E.
  - change (forallb wf_seg (removelast (x :: l)) = true).
    apply removelast_forallb. assumption.
Qed.

(** The name of a well-formed path holds no slash. *)
Lemma name_no_sep (p : Path) :
  wf p = true -> PyStr.contains sep (name p) = false.
Proof.
  unfold wf, name. intros H.
  destruct (segs p) as [| x l] eqn:E; [reflexivity |].
  assert (Hin : In (last (x :: l) "") (x :: l)).
  { destruct (exists_last (l := x :: l)) as (l' & a & Ha); [discriminate |].
    rewrite Ha, last_last. apply in_or_app. right. left. reflexivity. }
  rewrite forallb_forall in H. specialize (H _ Hin).
  unfold wf_seg in H. apply andb_true_iff in H as [H _].
  now apply negb_true_iff in H.
Qed.

(** A string that is a proper segment parses to itself. *)
Lemma of_string_segment (x : string) :
  wf_seg x = true -> of_string x = mkPath "" [x].
Proof.
  unfold wf_seg. intros H. apply andb_true_iff in H as [Hc Hk].
  apply negb_true_iff in Hc.
  unfold of_string, splitroot.
  destruct x as [| a x]; [discriminate Hk |].
  simpl in Hc. apply orb_false_iff in Hc as [Ha Hx].
  rewrite Ha.
  rewrite split_no_sep by (simpl; now rewrite Ha, Hx).
  simpl. now rewrite Hk.
Qed.

Lemma div_segment (p : Path) (x : string) :
  wf_seg x = true -> p // x = mkPath (root p) (segs p ++ [x])%list.
Proof.
  intros H. unfold div. rewrite (of_string_segment x H). reflexivity.
Qed.

Lemma parent_snoc (r : string) (l : list string) (x : string) :
  parent (mkPath r (l ++ [x])%list) = mkPath r l.
Proof.
  unfold parent. simpl. rewrite removelast_last.
  destruct (l ++ [x])%list eqn:E; [| reflexivity].
  destruct l; discriminate.
Qed.

Lemma name_snoc (r : string) (l : list string) (x : string) :
  name (mkPath r (l ++ [x])%list) = x.
Proof. unfold name. simpl. apply last_last. Qed.

Lemma length_append (a b : string) :
  String.length (a ++ b) = (String.length a + String.length b)%nat.
Proof. induction a; simpl; [reflexivity | now rewrite IHa]. Qed.

(** A name with text appended is a proper segment when the text is
    longer than one character and holds no slash. *)
Lemma wf_seg_append (a b : string) :
  PyStr.contains sep a = false ->
  PyStr.contains sep b = false ->
  (2 <= String.length b)%nat ->
  wf_seg (a ++ b) = true.
Proof.
  intros Ha Hb Hlen. unfold wf_seg, keep_seg.
  rewrite contains_append, Ha, Hb. simpl.
  assert (Hl : (2 <= String.length (a ++ b))%nat).
  { rewrite length_append. lia. }
  destruct (a ++ b) as [| c [| d t]]; simpl in Hl; try lia.
  simpl. destruct (Ascii.eqb c "."); reflexivity.
Qed.

Lemma substring_all (s : string) : substring 0 (String.length s) s = s.
Proof. induction s; simpl; [reflexivity | now rewrite IHs]. Qed.

Lemma substring_append_right (a b : string) :
  substring (String.length a) (String.length b) (a ++ b) = b.
Proof. induction a; simpl; [apply substring_all | assumption]. Qed.

(** [(a + b).endswith(b)] *)
Lemma endswith_append (a b : string) : PyStr.endswith (a ++ b) b = true.
Proof.
  unfold PyStr.endswith. rewrite length_append.
  replace (String.length a + String.length b - String.length b)%nat
    with (String.length a) by lia.
  rewrite substring_append_right, String.eqb_refl, andb_true_r.
  apply Nat.leb_le. lia.
Qed.

Lemma strip_prefix_app (a b : list string) : strip_prefix a (a ++ b) = Some b.
Proof.
  induction a as [| x a IH]; simpl; [reflexivity |].
  now rewrite String.eqb_refl.
Qed.

Lemma strip_prefix_inv (a l rest : list string) :
  strip_prefix a l = Some rest -> l = (a ++ rest)%list.
Proof.
  revert l. induction a as [| x a IH]; simpl; intros l H.
  - now inversion H.
  - destruct l as [| y l]; [discriminate |].
    destruct (String.eqb x y) eqn:E; [| discriminate].
    apply String.eqb_eq in E. subst y. f_equal. apply IH. assumption.
Qed.

(** [p.relative_to(q) = rel] gives [p = q / rel], with [rel] relative. *)
Lemma relative_to_inv (p q rel : Path) :
  relative_to p q = Some rel ->
  root rel = "" /\ root p = root q /\ segs p = (segs q ++ segs rel)%list.
Proof.
  unfold relative_to. intros H.
  destruct (String.eqb (root p) (root q)) eqn:E; [| discriminate].
  destruct (strip_prefix (segs q) (segs p)) eqn:S; [| discriminate].
  inversion H; subst. simpl. apply String.eqb_eq in E.
  apply strip_prefix_inv in S. auto.
Qed.

End PathFacts.

(** ** The output root *)

Section OutputRoot.

Context {P : Platform}.
Local Open Scope path_scope.

Lemma watermark_segment (p : Path) :
  wf p = true -> wf_seg (name p ++ "_watermark") = true.
Proof.
  intros H. apply wf_seg_append.
  - apply name_no_sep. assumption.
  - reflexivity.
  - simpl. lia.
Qed.

Lemma find_output_dir_parts (w : World) (input_path : Path) :
  wf input_path = true ->
  let base_dir :=
    if path_is_file w input_path then parent input_path else input_path in
  find_output_dir w input_path
  = mkPath (root base_dir) (segs base_dir ++ [(name base_dir ++ "_watermark")%string])%list.
Proof.
  intros H base_dir. unfold find_output_dir. fold base_dir.
  apply div_segment. apply watermark_segment.
  unfold base_dir. destruct (path_is_file w input_path);
    [apply parent_wf |]; assumption.
Qed.

(** C1 (as the program has it).  For every input path, the output root
    is the directory ["<baseName>_watermark"] directly inside the base
    directory, where the base directory is the parent of an input
    file and the input directory itself otherwise, and [baseName] is
    its name.  So the output root of a file lies beside the file, and
    the output root of a directory lies inside that directory. *)
Theorem find_output_dir_inside_base :
  forall (w : World) (s : string),
    let input_path := of_string s in
    let base_dir :=
      if path_is_file w input_path then parent input_path else input_path in
    let output_root := find_output_dir w input_path in
    name output_root = name base_dir ++ "_watermark"
    /\ parent output_root = base_dir
    /\ (if path_is_file w input_path
        then parent output_root = parent input_path
        else parent output_root = input_path).
Proof.
  intros w s input_path base_dir output_root.
  assert (E : output_root
              = mkPath (root base_dir)
                  (segs base_dir ++ [(name base_dir ++ "_watermark")%string])%list).
  { apply find_output_dir_parts. apply of_string_wf. }
  assert (Hp : parent output_root = base_dir).
  { rewrite E, parent_snoc. destruct base_dir; reflexivity. }
  split; [rewrite E; apply name_snoc |].
  split; [exact Hp |].
  unfold base_dir in Hp. destruct (path_is_file w input_path); exact Hp.
Qed.

End OutputRoot.

(** C1 as the specification states it fails for a directory: the output
    root of the directory [/photos/input] is
    [/photos/input/input_watermark], inside the input directory; its
    parent is the input, not the parent of the input, so it is no
    sibling of the input directory. *)
Lemma find_output_dir_directory_not_sibling :
  Sim.is_file Scenario.photos (of_string "/photos/input") = false
  /\ find_output_dir (P := Sim.platform) Scenario.photos (of_string "/photos/input")
     = of_string "/photos/input/input_watermark"
  /\ parent (find_output_dir (P := Sim.platform) Scenario.photos
               (of_string "/photos/input"))
     = of_string "/photos/input"
  /\ parent (find_output_dir (P := Sim.platform) Scenario.photos
               (of_string "/photos/input"))
     <> parent (of_string "/photos/input").
Proof.
  repeat split; try reflexivity. vm_compute. discriminate.
Qed.

(** ** Compositor *)

Section Compositor.

Context {P : Platform}.

(** C9. A colour string that [ImageColor.getrgb] refuses gives the
    fill colour [(255, 255, 255)]: nothing is raised, and the image is
    drawn exactly as with a colour string that parses to white. *)
Theorem parse_color_defaults_to_white :
  forall (color white : string) (e : Exception) (image : Image)
         (text : string) (opacity : Z) (position : string) (font : Font),
    ImageColor_getrgb color = inl e ->
    ImageColor_getrgb white = inr [255; 255; 255] ->
    parse_color color = [255; 255; 255]
    /\ draw_watermark image text color opacity position font
       = draw_watermark image text white opacity position font.
Proof.
  intros color white e image text opacity position font Hbad Hwhite.
  unfold draw_watermark, parse_color. rewrite Hbad, Hwhite.
  split; reflexivity.
Qed.

End Compositor.

Lemma parse_color_defaults_to_white_witness :
  Sim.getrgb "nocolor" = inl (ValueError "unknown color specifier: 'nocolor'")
  /\ parse_color (P := Sim.platform) "nocolor" = [255; 255; 255]
  /\ draw_watermark (P := Sim.platform) Scenario.canvas "2022-07-04" "nocolor" 220
       "center" (Sim.mkFont "" 10)
     = draw_watermark (P := Sim.platform) Scenario.canvas "2022-07-04" "#FFFFFF" 220
         "center" (Sim.mkFont "" 10).
Proof.
  split; [reflexivity |].
  apply (parse_color_defaults_to_white (P := Sim.platform) "nocolor" "#FFFFFF"
           (ValueError "unknown color specifier: 'nocolor'"));
    reflexivity.
Defined.

(** C2 (the program departs from it).  On the simulated platform the
    two calls of [ImageDraw.text] get these fills, for every opacity:
    the text gets the alpha [max(0, min(255, opacity))], the shadow gets
    [min(255, opacity)], which has no lower bound.  With the opacity -5
    the text is drawn with alpha 0 and the shadow with alpha -5. *)
Theorem draw_watermark_shadow_alpha :
  (forall opacity : Z,
     draw_watermark (P := Sim.platform) Scenario.canvas "2022-07-04" "#FFFFFF"
       opacity "bottom-right" (Sim.mkFont "" 10)
     = inr (Sim.mkImage "RGBA" (640, 480) []
              [ Sim.mkDrawn (576, 456) "2022-07-04" [0; 0; 0; Z.min 255 opacity];
                Sim.mkDrawn (574, 454) "2022-07-04"
                  [255; 255; 255; Z.max 0 (Z.min 255 opacity)] ]))
  /\ draw_watermark (P := Sim.platform) Scenario.canvas "2022-07-04" "#FFFFFF"
       (-5) "bottom-right" (Sim.mkFont "" 10)
     = inr (Sim.mkImage "RGBA" (640, 480) []
              [ Sim.mkDrawn (576, 456) "2022-07-04" [0; 0; 0; -5];
                Sim.mkDrawn (574, 454) "2022-07-04" [255; 255; 255; 0] ]).
Proof.
  split; [intros opacity |]; reflexivity.
Qed.

(** ** FileProcessor *)

Ltac run_step :=
  match goal with
  | H : (_, _) = (_, _) |- _ => inversion H; subst; clear H
  | H : context [match ?x with _ => _ end] |- _ =>
      destruct x eqn:?; simpl in H; try discriminate H
  end.

Section FileProcessor.

Context {P : Platform}.
Local Open Scope prog_scope.
Local Open Scope path_scope.

(** The only value the body returns is the path it wrote. *)
Lemma process_image_body_returns (input_file output_dir : Path) (args : Args)
    (s s1 : State) (r : option Path) :
  process_image_body input_file output_dir args s = (inr r, s1) ->
  r = Some (output_dir // out_name input_file).
Proof.
  unfold process_image_body, with_Image_open, bind, writing, lift, ret.
  intros H. repeat run_step; reflexivity.
Qed.

(** A file that does not decode makes the body raise. *)
Lemma process_image_body_decode_failure (input_file output_dir : Path)
    (args : Args) (s : State) (e : Exception) (w : World) :
  Image_open input_file (fs s) = (inl e, w) ->
  process_image_body input_file output_dir args s
  = (inl e, mkState w (stderr s) (stdout s)).
Proof.
  intros H. unfold process_image_body, with_Image_open, bind, writing.
  rewrite H. reflexivity.
Qed.

(** C3. Whenever the body of [process_image_file] raises an exception
    [e], at any of its steps (decoding, composing, encoding, writing),
    [process_image_file] prints ["Failed to process <path>: <e>"] to
    the diagnostic stream and returns [None] without raising.  In the
    loop over the files of a directory the counter is then left as it
    was and the loop goes on with the files that follow. *)
Theorem process_image_file_isolates_failure :
  forall (input_file output_dir : Path) (args : Args) (s s' : State)
         (e : Exception),
    process_image_body input_file output_dir args s = (inl e, s') ->
    process_image_file input_file output_dir args s
    = (inr None, failure_logged input_file e s')
    /\ forall (root_path rel output_root : Path) (name : string)
              (rest : list string) (processed : Z),
         root_path // name = input_file ->
         joinpath output_root rel = output_dir ->
         is_image_file input_file = true ->
         files_loop root_path rel output_root args (name :: rest) processed s
         = files_loop root_path rel output_root args rest processed
             (failure_logged input_file e s').
Proof.
  intros input_file output_dir args s s' e Hbody.
  assert (Hfile : process_image_file input_file output_dir args s
                  = (inr None, failure_logged input_file e s')).
  { unfold process_image_file, try_except. rewrite Hbody. reflexivity. }
  split; [exact Hfile |].
  intros root_path rel output_root name rest processed Hp Hout Himg.
  simpl files_loop. rewrite Hp, Himg, Hout.
  unfold bind at 1. rewrite Hfile. reflexivity.
Qed.

(** A processed file counts, and the loop goes on from the state the
    processing left. *)
Lemma files_loop_success (root_path rel output_root : Path) (args : Args)
    (name : string) (rest : list string) (processed : Z) (s s' : State)
    (q : Path) :
  is_image_file (root_path // name) = true ->
  process_image_file (root_path // name) (joinpath output_root rel) args s
  = (inr (Some q), s') ->
  files_loop root_path rel output_root args (name :: rest) processed s
  = files_loop root_path rel output_root args rest (processed + 1) s'.
Proof.
  intros Himg Hrun. simpl files_loop. rewrite Himg.
  unfold bind at 1. rewrite Hrun. reflexivity.
Qed.

Lemma process_image_file_returns (input_file output_dir : Path) (args : Args)
    (s s' : State) (q : Path) :
  process_image_file input_file output_dir args s = (inr (Some q), s') ->
  q = output_dir // out_name input_file.
Proof.
  unfold process_image_file, try_except. intros H.
  destruct (process_image_body input_file output_dir args s) as [[e | r] s1] eqn:E.
  - discriminate H.
  - inversion H; subst.
    apply process_image_body_returns in E. now inversion E.
Qed.

End FileProcessor.

Lemma process_image_file_isolates_failure_witness :
  process_image_body (P := Sim.platform) (of_string "album/bad.jpg")
    (of_string "album/album_watermark") (Scenario.defaults "album")
    (Sim.start Scenario.album)
  = (inl (mkException ["UnidentifiedImageError"; "OSError"; "Exception"]
            "cannot identify image file 'album/bad.jpg'"),
     Sim.start Scenario.album)
  /\ process_image_file (P := Sim.platform) (of_string "album/bad.jpg")
       (of_string "album/album_watermark") (Scenario.defaults "album")
       (Sim.start Scenario.album)
     = (inr None,
        mkState (P := Sim.platform) Scenario.album
          ["Failed to process album/bad.jpg: cannot identify image file 'album/bad.jpg'"]
          [])
  /\ files_loop (P := Sim.platform) (of_string "album") (of_string ".")
       (of_string "album/album_watermark") (Scenario.defaults "album")
       ["bad.jpg"; "c.png"] 0 (Sim.start Scenario.album)
     = files_loop (P := Sim.platform) (of_string "album") (of_string ".")
         (of_string "album/album_watermark") (Scenario.defaults "album")
         ["c.png"] 0
         (mkState (P := Sim.platform) Scenario.album
            ["Failed to process album/bad.jpg: cannot identify image file 'album/bad.jpg'"]
            []).
Proof.
  split; [reflexivity |].
  destruct (process_image_file_isolates_failure (P := Sim.platform)
              (of_string "album/bad.jpg") (of_string "album/album_watermark")
              (Scenario.defaults "album") (Sim.start Scenario.album)
              (Sim.start Scenario.album)
              (mkException ["UnidentifiedImageError"; "OSError"; "Exception"]
                 "cannot identify image file 'album/bad.jpg'")
              eq_refl) as [Hfile Hloop].
  split; [exact Hfile |].
  apply (Hloop (of_string "album") (of_string ".")
           (of_string "album/album_watermark") "bad.jpg" ["c.png"] 0);
    reflexivity.
Defined.

(** ** The name of the written file *)

Section OutputName.

Context {P : Platform}.
Local Open Scope path_scope.

Lemma stem_no_sep (p : Path) :
  wf p = true -> PyStr.contains sep (stem p) = false.
Proof.
  intros H. unfold stem.
  destruct ((0 <? PyStr.rfind "." (name p))
            && (PyStr.rfind "." (name p) <? PyStr.len (name p) - 1)).
  - apply contains_substring. apply name_no_sep. assumption.
  - apply name_no_sep. assumption.
Qed.

(** The name of the written file is a single path segment. *)
Lemma out_name_segment (p : Path) : wf p = true -> wf_seg (out_name p) = true.
Proof.
  intros H. unfold out_name. apply wf_seg_append.
  - apply stem_no_sep. assumption.
  - destruct (String.eqb (PyStr.lower (suffix p)) ".png"); reflexivity.
  - destruct (String.eqb (PyStr.lower (suffix p)) ".png"); simpl; lia.
Qed.

(** C7. For every file [process_image_file] processes, the written
    path is the output directory extended by the file name
    [stem + "_wm" + (".png" if ext == ".png" else ".jpg")], where
    [ext] is the lower-cased suffix of the input: the name ends in
    ["_wm.png"] for a PNG source and in ["_wm.jpg"] for every other
    one. *)
Theorem out_name_extension :
  forall (input_file output_dir : Path) (args : Args) (s s' : State) (q : Path),
    wf input_file = true ->
    process_image_file input_file output_dir args s = (inr (Some q), s') ->
    q = output_dir // out_name input_file
    /\ name q = out_name input_file
    /\ out_name input_file
       = stem input_file ++ "_wm"
         ++ (if String.eqb (PyStr.lower (suffix input_file)) ".png"
             then ".png" else ".jpg")
    /\ (if String.eqb (PyStr.lower (suffix input_file)) ".png"
        then PyStr.endswith (name q) "_wm.png" = true
        else PyStr.endswith (name q) "_wm.jpg" = true).
Proof.
  intros input_file output_dir args s s' q Hwf Hrun.
  apply process_image_file_returns in Hrun.
  assert (Hname : name q = out_name input_file).
  { rewrite Hrun, (div_segment _ _ (out_name_segment _ Hwf)). apply name_snoc. }
  split; [exact Hrun |]. split; [exact Hname |]. split; [reflexivity |].
  rewrite Hname. unfold out_name.
  destruct (String.eqb (PyStr.lower (suffix input_file)) ".png").
  - apply (endswith_append (stem input_file) "_wm.png").
  - apply (endswith_append (stem input_file) "_wm.jpg").
Qed.

End OutputName.

Lemma out_name_extension_witness :
  wf (of_string "input/sub/b.PNG") = true
  /\ out_name (of_string "input/sub/b.PNG") = "b_wm.png"
  /\ fst (process_image_file (P := Sim.platform) (of_string "input/a.jpg")
            (of_string "out") (Scenario.defaults "input") (Sim.start Scenario.tree))
     = inr (Some (of_string "out/a_wm.jpg"))
  /\ name (of_string "out/a_wm.jpg") = out_name (of_string "input/a.jpg")
  /\ PyStr.endswith (name (of_string "out/a_wm.jpg")) "_wm.jpg" = true.
Proof.
  split; [reflexivity |]. split; [reflexivity |]. split; [reflexivity |].
  destruct (out_name_extension (P := Sim.platform) (of_string "input/a.jpg")
              (of_string "out") (Scenario.defaults "input")
              (Sim.start Scenario.tree)
              (snd (process_image_file (P := Sim.platform) (of_string "input/a.jpg")
                      (of_string "out") (Scenario.defaults "input")
                      (Sim.start Scenario.tree)))
              (of_string "out/a_wm.jpg") eq_refl eq_refl)
    as (_ & Hname & _ & Hends).
  split; [exact Hname | exact Hends].
Defined.

(** ** BatchWalker *)

Section BatchWalker.

Context {P : Platform}.
Local Open Scope path_scope.

Lemma of_string_relative (x : string) :
  PyStr.contains sep x = false -> root (of_string x) = "".
Proof.
  intros H. unfold of_string, splitroot.
  destruct x as [| a x]; [reflexivity |].
  simpl in H. apply orb_false_iff in H as [Ha _]. rewrite Ha. reflexivity.
Qed.

Lemma relative_to_joinpath (p q rel : Path) :
  root p = root q ->
  segs p = (segs q ++ segs rel)%list ->
  root rel = "" ->
  relative_to p q = Some rel.
Proof.
  intros Hr Hs Hrel. unfold relative_to.
  rewrite Hr, String.eqb_refl, Hs, strip_prefix_app.
  destruct rel as [r l]. simpl in Hrel. now subst r.
Qed.

(** The path of a file the walk finds, relative to the input, and the
    path of the file written for it, relative to the output root. *)
Lemma mirrored_paths (input_path output_root rel : Path) (root name : string) :
  relative_to (of_string root) input_path = Some rel ->
  PyStr.contains sep name = false ->
  relative_to (of_string root // name) input_path
  = Some (joinpath rel (of_string name))
  /\ relative_to (joinpath output_root rel // out_name (of_string root // name))
       output_root
     = Some (joinpath rel (of_string (out_name (of_string root // name)))).
Proof.
  intros Hrel Hname.
  apply relative_to_inv in Hrel as (Hr & Hroot & Hsegs).
  pose proof (of_string_relative name Hname) as Hn.
  assert (Hwf : wf (of_string root // name) = true)
    by (apply div_wf, of_string_wf).
  split.
  - apply relative_to_joinpath.
    + unfold div, joinpath. rewrite Hn. simpl. exact Hroot.
    + unfold div, joinpath. rewrite Hn, Hr. simpl.
      rewrite Hsegs, app_assoc. reflexivity.
    + unfold joinpath. rewrite Hn. simpl. exact Hr.
  - rewrite (div_segment _ _ (out_name_segment _ Hwf)).
    rewrite (of_string_segment _ (out_name_segment _ Hwf)).
    apply relative_to_joinpath.
    + unfold joinpath. rewrite Hr. reflexivity.
    + unfold joinpath. rewrite Hr. simpl. rewrite app_assoc. reflexivity.
    + unfold joinpath. simpl. exact Hr.
Qed.

End BatchWalker.

(** C8. In directory mode, a file [name] with a recognised extension,
    found by the walk in the directory [root] whose path relative to the
    input is [rel], is processed into the directory [rel] under the
    output root.  When it is processed, the loop counts it, and the
    path of the written file relative to the output root is the path of
    the input file relative to the input, with the file name replaced
    by the output name.  On [input/a.jpg] and [input/sub/b.png] the
    program writes [a_wm.jpg] and [sub/b_wm.png] under the output root
    and reports two processed images. *)
Theorem directory_mode_mirrors_tree :
  (forall (P : Platform) (input_path output_root rel : Path) (args : Args)
          (root name : string) (rest : list string) (processed : Z)
          (s s' : State) (q : Path),
      relative_to (of_string root) input_path = Some rel ->
      PyStr.contains sep name = false ->
      is_image_file (of_string root // name)%path = true ->
      process_image_file (of_string root // name)%path (joinpath output_root rel)
        args s = (inr (Some q), s') ->
      relative_to (of_string root // name)%path input_path
      = Some (joinpath rel (of_string name))
      /\ relative_to q output_root
         = Some (joinpath rel
                   (of_string (out_name (of_string root // name)%path)))
      /\ files_loop (of_string root) rel output_root args (name :: rest) processed s
         = files_loop (of_string root) rel output_root args rest (processed + 1) s')
  /\ fst (main (P := Sim.platform) (Scenario.defaults "input") Scenario.tree_walk
            (Sim.start Scenario.tree))
     = inr Returned
  /\ Sim.file_names
       (fs (snd (main (P := Sim.platform) (Scenario.defaults "input")
                   Scenario.tree_walk (Sim.start Scenario.tree))))
     = [ "input/a.jpg"; "input/sub/b.png";
         to_string (find_output_dir (P := Sim.platform) Scenario.tree
                      (of_string "input") // "a_wm.jpg")%path;
         to_string (find_output_dir (P := Sim.platform) Scenario.tree
                      (of_string "input") // "sub/b_wm.png")%path ]
  /\ stdout (snd (main (P := Sim.platform) (Scenario.defaults "input")
                    Scenario.tree_walk (Sim.start Scenario.tree)))
     = [ "Done. Processed 2 image(s). Output: input/input_watermark" ].
Proof.
  split; [| repeat split; reflexivity].
  intros P input_path output_root rel args root name rest processed s s' q
         Hrel Hname Himg Hrun.
  destruct (mirrored_paths input_path output_root rel root name Hrel Hname)
    as [Hin Hout].
  split; [exact Hin |]. split.
  - rewrite (process_image_file_returns _ _ _ _ _ _ Hrun). exact Hout.
  - apply (files_loop_success _ _ _ _ _ _ _ _ _ q); assumption.
Qed.

Lemma directory_mode_mirrors_tree_witness :
  relative_to (of_string "input/sub") (of_string "input") = Some (of_string "sub")
  /\ fst (process_image_file (P := Sim.platform) (of_string "input/sub/b.png")
            (of_string "input/input_watermark/sub") (Scenario.defaults "input")
            (Sim.start Scenario.tree))
     = inr (Some (of_string "input/input_watermark/sub/b_wm.png"))
  /\ relative_to (of_string "input/sub/b.png") (of_string "input")
     = Some (of_string "sub/b.png")
  /\ relative_to (of_string "input/input_watermark/sub/b_wm.png")
       (of_string "input/input_watermark")
     = Some (of_string "sub/b_wm.png").
Proof.
  split; [reflexivity |]. split; [reflexivity |].
  destruct (proj1 directory_mode_mirrors_tree Sim.platform
              (of_string "input") (of_string "input/input_watermark")
              (of_string "sub") (Scenario.defaults "input") "input/sub" "b.png"
              [] 0 (Sim.start Scenario.tree)
              (snd (process_image_file (P := Sim.platform)
                      (of_string "input/sub/b.png")
                      (of_string "input/input_watermark/sub")
                      (Scenario.defaults "input") (Sim.start Scenario.tree)))
              (of_string "input/input_watermark/sub/b_wm.png")
              eq_refl eq_refl eq_refl eq_refl)
    as (Hin & Hout & _).
  split; [exact Hin | exact Hout].
Defined.

(** ** DateResolver *)

Section DateResolver.

Context {P : Platform}.

Lemma try_formats_skip (text : string) (before rest : list string) :
  forallb (refuses text) before = true ->
  try_formats text (before ++ rest) = try_formats text rest.
Proof.
  induction before as [| f before IH]; simpl; intros H; [reflexivity |].
  apply andb_true_iff in H as [Hf Hb]. unfold refuses in Hf.
  destruct (strptime text f) as [e | d]; [| discriminate Hf].
  rewrite Hf. apply IH. assumption.
Qed.

Lemma scan_keys_skip (tag_map : list (TagKey * ExifValue))
    (before rest : list string) :
  forallb (yields_nothing tag_map) before = true ->
  scan_keys tag_map (before ++ rest) = scan_keys tag_map rest.
Proof.
  induction before as [| k before IH]; cbn [app scan_keys forallb]; intros H;
    [reflexivity |].
  apply andb_true_iff in H as [Hk Hb]. specialize (IH Hb).
  unfold yields_nothing in Hk.
  destruct (dict_get tag_map (KName k)) as [v |]; [| exact IH].
  destruct (negb (truthy v)); [exact IH |].
  destruct (value_text v) as [e | text]; [exact IH |].
  destruct (try_formats text datetime_formats) as [e | [d |]];
    try discriminate Hk.
  exact IH.
Qed.

Lemma scan_keys_nothing (tag_map : list (TagKey * ExifValue)) (keys : list string) :
  forallb (yields_nothing tag_map) keys = true ->
  scan_keys tag_map keys = inr None.
Proof.
  intros H. rewrite <- (app_nil_r keys). rewrite scan_keys_skip by assumption.
  reflexivity.
Qed.

End DateResolver.

(** C4 (as the program has it).  The resolver goes through the keys
    [DateTimeOriginal], [DateTimeDigitized], [DateTime] in this order.
    A key that is absent, empty, or whose text every format refuses is
    passed over, and the next key is tried.  For the text of a key the
    formats ["%Y:%m:%d %H:%M:%S"], ["%Y-%m-%d %H:%M:%S"], ["%Y:%m:%d"],
    ["%Y-%m-%d"] are tried in this order, and the first that parses
    gives the date.  With [DateTimeOriginal = "2020:01:02 10:00:00"]
    and [DateTime = "2021:05:05 00:00:00"] the date shown is
    ["2020-01-02"]. *)
Theorem get_exif_datetime_first_parse :
  (forall (P : Platform) (image : Image) (exif : list (Z * ExifValue))
          (keys_before keys_after : list string) (key : string)
          (value : ExifValue) (text : string)
          (formats_before formats_after : list string) (format : string)
          (d : datetime),
      Image_getexif image = inr exif ->
      exif <> [] ->
      datetime_keys = (keys_before ++ key :: keys_after)%list ->
      forallb (yields_nothing (tag_map_of exif)) keys_before = true ->
      dict_get (tag_map_of exif) (KName key) = Some value ->
      truthy value = true ->
      value_text value = inr text ->
      datetime_formats = (formats_before ++ format :: formats_after)%list ->
      forallb (refuses text) formats_before = true ->
      strptime text format = inr d ->
      get_exif_datetime image = Some d)
  /\ get_exif_datetime (P := Sim.platform) Scenario.im_both
     = Some (mkDatetime 2020 1 2 10 0 0)
  /\ option_map format_date (get_exif_datetime (P := Sim.platform) Scenario.im_both)
     = Some "2020-01-02".
Proof.
  split; [| split; reflexivity].
  intros P image exif keys_before keys_after key value text formats_before
         formats_after format d Hexif Hne Hkeys Hbefore Hget Htruthy Htext
         Hformats Hrefuse Hparse.
  unfold get_exif_datetime, get_exif_datetime_body. rewrite Hexif.
  unfold res_bind. destruct exif as [| item exif']; [contradiction |].
  rewrite Hkeys, scan_keys_skip by assumption.
  cbn [scan_keys]. rewrite Hget, Htruthy. cbn [negb].
  rewrite Htext, Hformats, try_formats_skip by assumption.
  cbn [try_formats]. rewrite Hparse. reflexivity.
Qed.

Lemma get_exif_datetime_first_parse_witness :
  forallb (yields_nothing (P := Sim.platform)
             (tag_map_of (P := Sim.platform) (Sim.exif Scenario.im_unknown_original)))
    ["DateTimeOriginal"; "DateTimeDigitized"] = true
  /\ get_exif_datetime (P := Sim.platform) Scenario.im_unknown_original
     = Some (mkDatetime 2021 5 5 0 0 0).
Proof.
  split; [reflexivity |].
  apply (proj1 get_exif_datetime_first_parse Sim.platform
           Scenario.im_unknown_original (Sim.exif Scenario.im_unknown_original)
           ["DateTimeOriginal"; "DateTimeDigitized"] [] "DateTime"
           (VStr "2021:05:05 00:00:00") "2021:05:05 00:00:00"
           [] ["%Y-%m-%d %H:%M:%S"; "%Y:%m:%d"; "%Y-%m-%d"] "%Y:%m:%d %H:%M:%S"
           (mkDatetime 2021 5 5 0 0 0));
    try reflexivity.
  discriminate.
Defined.

(** C4 as the specification states it fails: when [DateTimeOriginal] is
    present and not empty but is no date (["unknown"]), and [DateTime]
    is ["2021:05:05 00:00:00"], the program does not stay with the first
    present value; it passes on to [DateTime] and returns 2021-05-05,
    where the resolver "of the first present, non-empty value" finds no
    date. *)
Lemma get_exif_datetime_passes_unparseable_value :
  first_present_value
    (tag_map_of (P := Sim.platform) (Sim.exif Scenario.im_unknown_original))
    datetime_keys
  = Some (VStr "unknown")
  /\ first_value_datetime (P := Sim.platform) Scenario.im_unknown_original = None
  /\ get_exif_datetime (P := Sim.platform) Scenario.im_unknown_original
     = Some (mkDatetime 2021 5 5 0 0 0)
  /\ get_exif_datetime (P := Sim.platform) Scenario.im_unknown_original
     <> first_value_datetime (P := Sim.platform) Scenario.im_unknown_original.
Proof.
  repeat split; try reflexivity. vm_compute. discriminate.
Qed.

(** ** The shape of the rendered date *)

Section DateShape.

Lemma forall_in_range (f : Z -> bool) (n : Z) :
  forallb f (map Z.of_nat (seq 1 (Z.to_nat n))) = true ->
  forall z, 1 <= z <= n -> f z = true.
Proof.
  intros H z Hz. rewrite forallb_forall in H. apply H.
  apply in_map_iff. exists (Z.to_nat z). split; [lia |].
  apply in_seq. lia.
Qed.

(** A year from 1000 on is rendered on four digits. *)
Lemma str_year (y : Z) : 1000 <= y <= 9999 -> digits 4 (str_of_int y) = true.
Proof.
  intros Hy.
  assert (H : ((y <? 1000) || digits 4 (str_of_int y))%bool = true).
  { apply (forall_in_range
             (fun y => ((y <? 1000) || digits 4 (str_of_int y))%bool) 9999);
      [vm_compute; reflexivity | lia]. }
  apply orb_true_iff in H as [H | H]; [apply Z.ltb_lt in H; lia | exact H].
Qed.

(** The digits of a year read back as the year. *)
Lemma str_year_read_back (y : Z) :
  1 <= y <= 9999 ->
  (CPython.int_of (list_ascii_of_string (str_of_int y)) =? y) = true.
Proof.
  apply (forall_in_range
           (fun y => CPython.int_of (list_ascii_of_string (str_of_int y)) =? y)
           9999).
  vm_compute. reflexivity.
Qed.

(** A month and a day are rendered on two digits, which read back. *)
Lemma zfill_day (d : Z) : 1 <= d <= 31 -> digits 2 (zfill 2 d) = true.
Proof.
  apply (forall_in_range (fun d => digits 2 (zfill 2 d)) 31).
  vm_compute. reflexivity.
Qed.

Lemma zfill_day_read_back (d : Z) :
  1 <= d <= 31 ->
  (CPython.int_of (list_ascii_of_string (zfill 2 d)) =? d) = true.
Proof.
  apply (forall_in_range
           (fun d => CPython.int_of (list_ascii_of_string (zfill 2 d)) =? d) 31).
  vm_compute. reflexivity.
Qed.

Lemma days_in_month_le (y m : Z) : days_in_month y m <= 31.
Proof.
  unfold days_in_month.
  destruct (m =? 2); [destruct (is_leap y); lia |].
  destruct ((m =? 4) || (m =? 6) || (m =? 9) || (m =? 11)); lia.
Qed.

Lemma datetime_ok_ranges (d : datetime) :
  datetime_ok d = true ->
  1 <= year d <= 9999 /\ 1 <= month d <= 31 /\ 1 <= day d <= 31.
Proof.
  unfold datetime_ok. intros H.
  repeat match type of H with
         | _ && _ = true => apply andb_true_iff in H as [H ?]
         end.
  repeat match goal with
         | H : (_ <=? _) = true |- _ => apply Z.leb_le in H
         end.
  pose proof (days_in_month_le (year d) (month d)). lia.
Qed.

(** Four digits, a dash, two digits, a dash, two digits: the shape, and
    where the three parts are found again. *)
Lemma date_text_parts (y m d : string) :
  digits 4 y = true -> digits 2 m = true -> digits 2 d = true ->
  is_YYYY_MM_DD (y ++ "-" ++ m ++ "-" ++ d) = true
  /\ substring 0 4 (y ++ "-" ++ m ++ "-" ++ d) = y
  /\ substring 5 2 (y ++ "-" ++ m ++ "-" ++ d) = m
  /\ substring 8 2 (y ++ "-" ++ m ++ "-" ++ d) = d.
Proof.
  unfold digits. intros Hy Hm Hd.
  apply andb_true_iff in Hy as [Ly Dy].
  apply andb_true_iff in Hm as [Lm Dm].
  apply andb_true_iff in Hd as [Ld Dd].
  destruct y as [| y1 [| y2 [| y3 [| y4 [| ? ?]]]]]; try discriminate Ly.
  destruct m as [| m1 [| m2 [| ? ?]]]; try discriminate Lm.
  destruct d as [| d1 [| d2 [| ? ?]]]; try discriminate Ld.
  split; [| repeat split; reflexivity].
  simpl in Dy, Dm, Dd |- *. unfold is_YYYY_MM_DD. simpl.
  repeat match goal with
         | H : _ && _ = true |- _ => apply andb_true_iff in H as [? ?]
         end.
  repeat match goal with
         | H : is_digit _ = true |- _ => rewrite H; clear H
         end.
  reflexivity.
Qed.

(** From the year 1000 on, [format_date] renders a date as
    ["YYYY-MM-DD"], and the digits are those of its year, month and
    day. *)
Lemma format_date_shape (d : datetime) :
  datetime_ok d = true ->
  1000 <= year d ->
  is_YYYY_MM_DD (format_date d) = true
  /\ CPython.int_of (list_ascii_of_string (substring 0 4 (format_date d))) = year d
  /\ CPython.int_of (list_ascii_of_string (substring 5 2 (format_date d))) = month d
  /\ CPython.int_of (list_ascii_of_string (substring 8 2 (format_date d))) = day d.
Proof.
  intros Hok Hy. destruct (datetime_ok_ranges d Hok) as (Y & M & D).
  unfold format_date, strftime_Y_m_d.
  destruct (date_text_parts (str_of_int (year d)) (zfill 2 (month d))
              (zfill 2 (day d)))
    as (Hshape & Hyear & Hmonth & Hday);
    [apply str_year; lia | apply zfill_day; lia | apply zfill_day; lia |].
  rewrite Hyear, Hmonth, Hday.
  split; [exact Hshape |].
  split; [apply Z.eqb_eq, str_year_read_back; lia |].
  split; apply Z.eqb_eq, zfill_day_read_back; lia.
Qed.

End DateShape.

(** C5 (as the program has it).  [get_exif_datetime] never raises: when
    reading the metadata raises, when the metadata is empty, when no
    key yields a date, and when any call inside it raises, it returns
    [None].  A date of the metadata is the resolved date, and nothing
    is raised.  Whenever [get_exif_datetime] returns [None], the
    resolved date is the time of the last modification of the input
    file, [datetime.fromtimestamp(input_file.stat().st_mtime)]; the
    resolution raises only when this reading of the file time raises,
    and with that exception.  The state is left as it was.  From the
    year 1000 on, [format_date] renders the date as ["YYYY-MM-DD"],
    with the digits of its year, month and day. *)
Theorem resolve_date_falls_back_to_mtime :
  forall (P : Platform) (im : Image) (input_file : Path) (s : State),
    (forall e, Image_getexif im = inl e -> get_exif_datetime im = None)
    /\ (Image_getexif im = inr [] -> get_exif_datetime im = None)
    /\ (forall exif,
          Image_getexif im = inr exif ->
          forallb (yields_nothing (tag_map_of exif)) datetime_keys = true ->
          get_exif_datetime im = None)
    /\ (forall e, get_exif_datetime_body im = inl e -> get_exif_datetime im = None)
    /\ (forall d,
          get_exif_datetime im = Some d ->
          resolve_date im input_file s = (inr d, s))
    /\ (get_exif_datetime im = None ->
        resolve_date im input_file s
        = (match path_stat_mtime (fs s) input_file with
           | inl e => inl e
           | inr t => fromtimestamp t
           end, s))
    /\ (forall e s',
          resolve_date im input_file s = (inl e, s') ->
          get_exif_datetime im = None
          /\ (path_stat_mtime (fs s) input_file = inl e
              \/ exists t,
                   path_stat_mtime (fs s) input_file = inr t
                   /\ fromtimestamp t = inl e))
    /\ (forall d,
          datetime_ok d = true ->
          1000 <= year d ->
          is_YYYY_MM_DD (format_date d) = true
          /\ CPython.int_of (list_ascii_of_string (substring 0 4 (format_date d)))
             = year d
          /\ CPython.int_of (list_ascii_of_string (substring 5 2 (format_date d)))
             = month d
          /\ CPython.int_of (list_ascii_of_string (substring 8 2 (format_date d)))
             = day d).
Proof.
  intros P im input_file s.
  assert (Hfall : get_exif_datetime im = None ->
                  resolve_date im input_file s
                  = (match path_stat_mtime (fs s) input_file with
                     | inl e => inl e
                     | inr t => fromtimestamp t
                     end, s)).
  { intros H. unfold resolve_date. rewrite H.
    unfold get_file_mtime, bind, reading, lift.
    destruct (path_stat_mtime (fs s) input_file); reflexivity. }
  split; [| split; [| split; [| split; [| split; [| split; [| split]]]]]].
  - intros e H. unfold get_exif_datetime, get_exif_datetime_body.
    rewrite H. reflexivity.
  - intros H. unfold get_exif_datetime, get_exif_datetime_body.
    rewrite H. reflexivity.
  - intros exif H Hkeys. unfold get_exif_datetime, get_exif_datetime_body.
    rewrite H. unfold res_bind. destruct exif; [reflexivity |].
    rewrite scan_keys_nothing by assumption. reflexivity.
  - intros e H. unfold get_exif_datetime. rewrite H. reflexivity.
  - intros d H. unfold resolve_date. rewrite H. reflexivity.
  - exact Hfall.
  - intros e s' H.
    destruct (get_exif_datetime im) as [d |] eqn:Hexif.
    + unfold resolve_date in H. rewrite Hexif in H. discriminate H.
    + split; [reflexivity |]. rewrite (Hfall eq_refl) in H.
      destruct (path_stat_mtime (fs s) input_file) as [e' | t].
      * left. inversion H. reflexivity.
      * right. exists t. split; [reflexivity |]. inversion H. reflexivity.
  - apply format_date_shape.
Qed.

Lemma resolve_date_falls_back_to_mtime_witness :
  get_exif_datetime (P := Sim.platform) Scenario.im_plain = None
  /\ resolve_date (P := Sim.platform) Scenario.im_plain (of_string "input/sub/b.png")
       (Sim.start Scenario.tree)
     = (inr Scenario.noon, Sim.start Scenario.tree)
  /\ datetime_ok Scenario.noon = true
  /\ 1000 <= year Scenario.noon
  /\ format_date Scenario.noon = "2022-07-04"
  /\ is_YYYY_MM_DD (format_date Scenario.noon) = true.
Proof.
  destruct (resolve_date_falls_back_to_mtime Sim.platform Scenario.im_plain
              (of_string "input/sub/b.png") (Sim.start Scenario.tree))
    as (_ & Hempty & _ & _ & _ & Hfall & _ & Hshape).
  split; [apply Hempty; reflexivity |].
  split; [rewrite (Hfall (Hempty eq_refl)); reflexivity |].
  split; [reflexivity |]. split; [simpl; lia |]. split; [reflexivity |].
  apply Hshape; [reflexivity | simpl; lia].
Defined.

(** C5 as the specification states it fails in two places.  A date of
    the metadata in the year 999 (["0999:01:02 00:00:00"]) is resolved
    and rendered as ["999-01-02"], which is not of the shape
    ["YYYY-MM-DD"].  And the resolution raises when the time of the
    file cannot be read: for an image without metadata and a path that
    is not in the file system it raises the [FileNotFoundError] of
    [stat]. *)
Lemma resolve_date_not_always_YYYY_MM_DD :
  get_exif_datetime (P := Sim.platform) Scenario.im_year_999
  = Some (mkDatetime 999 1 2 0 0 0)
  /\ datetime_ok (mkDatetime 999 1 2 0 0 0) = true
  /\ resolve_date (P := Sim.platform) Scenario.im_year_999
       (of_string "input/a.jpg") (Sim.start Scenario.tree)
     = (inr (mkDatetime 999 1 2 0 0 0), Sim.start Scenario.tree)
  /\ format_date (mkDatetime 999 1 2 0 0 0) = "999-01-02"
  /\ is_YYYY_MM_DD (format_date (mkDatetime 999 1 2 0 0 0)) = false
  /\ get_exif_datetime (P := Sim.platform) Scenario.im_plain = None
  /\ resolve_date (P := Sim.platform) Scenario.im_plain
       (of_string "input/gone.jpg") (Sim.start Scenario.tree)
     = (inl (Sim.FileNotFoundError (of_string "input/gone.jpg")),
        Sim.start Scenario.tree).
Proof.
  repeat split; reflexivity.
Qed.

(** * Further properties of the program *)

(** ** Where the text is put *)

(** X1. A text that fits into the image with the margin on both sides
    is put wholly inside the image, at least the margin away from
    every edge, whatever the position string is. *)
Theorem text_that_fits_stays_inside :
  forall (W H w h margin : Z) (position : string),
    0 <= margin ->
    w + 2 * margin <= W ->
    h + 2 * margin <= H ->
    margin <= fst (compute_text_position (W, H) (w, h) position margin)
    /\ fst (compute_text_position (W, H) (w, h) position margin) + w <= W - margin
    /\ margin <= snd (compute_text_position (W, H) (w, h) position margin)
    /\ snd (compute_text_position (W, H) (w, h) position margin) + h <= H - margin.
Proof.
  intros W H w h margin position Hm Hw Hh.
  unfold compute_text_position.
  pose proof (Z.div_mod (W - w) 2 ltac:(lia)) as Dw.
  pose proof (Z.mod_pos_bound (W - w) 2 ltac:(lia)) as Bw.
  pose proof (Z.div_mod (H - h) 2 ltac:(lia)) as Dh.
  pose proof (Z.mod_pos_bound (H - h) 2 ltac:(lia)) as Bh.
  destruct (String.eqb position "top-left"); [simpl; lia |].
  destruct (String.eqb position "top-right"); [simpl; lia |].
  destruct (String.eqb position "center"); [simpl; lia |].
  destruct (String.eqb position "bottom-left"); simpl; lia.
Qed.

Lemma text_that_fits_stays_inside_witness :
  compute_text_position (640, 480) (121, 33) "center" 16 = (259, 223)
  /\ 16 <= 259 /\ 259 + 121 <= 640 - 16 /\ 16 <= 223 /\ 223 + 33 <= 480 - 16.
Proof.
  split; [reflexivity |].
  apply (text_that_fits_stays_inside 640 480 121 33 16 "center"); lia.
Defined.

(** X2. At the center the text is centred up to the rounding of the
    floor division: the space right of the text exceeds the space left
    of it by 0 or 1 pixel, and so for the space below and above, for
    all sizes, also for a text larger than the image. *)
Theorem center_is_balanced :
  forall (W H w h margin : Z),
    0 <= (W - w - fst (compute_text_position (W, H) (w, h) "center" margin))
         - fst (compute_text_position (W, H) (w, h) "center" margin) <= 1
    /\ 0 <= (H - h - snd (compute_text_position (W, H) (w, h) "center" margin))
            - snd (compute_text_position (W, H) (w, h) "center" margin) <= 1.
Proof.
  intros W H w h margin. unfold compute_text_position. cbn.
  pose proof (Z.div_mod (W - w) 2 ltac:(lia)).
  pose proof (Z.mod_pos_bound (W - w) 2 ltac:(lia)).
  pose proof (Z.div_mod (H - h) 2 ltac:(lia)).
  pose proof (Z.mod_pos_bound (H - h) 2 ltac:(lia)).
  lia.
Qed.

(** ** Fonts and opacity *)

Section FontsAndOpacity.

Context {P : Platform}.

Lemma load_font_pure (font_path : option string) (font_size : Z) :
  pure_read (load_font font_path font_size).
Proof.
  intros s. unfold load_font, try_except, reading.
  destruct font_path as [fp |]; [| reflexivity].
  destruct (negb (String.eqb fp "")); [| reflexivity].
  destruct (ImageFont_truetype (fs s) fp font_size); reflexivity.
Qed.

(** X3. [load_font] falls back to the built-in font: a font file that
    does not load, and an empty path, give exactly what no path gives;
    a font file that loads gives that font.  No failure of the font
    file is raised, and the state is left as it was. *)
Theorem load_font_falls_back :
  forall (font_size : Z) (s : State),
    (forall fp e,
        ImageFont_truetype (fs s) fp font_size = inl e ->
        load_font (Some fp) font_size s = load_font None font_size s)
    /\ load_font (Some "") font_size s = load_font None font_size s
    /\ (forall fp f,
          fp <> "" ->
          ImageFont_truetype (fs s) fp font_size = inr f ->
          load_font (Some fp) font_size s = (inr f, s))
    /\ (forall font_path, snd (load_font font_path font_size s) = s).
Proof.
  intros font_size s. split; [| split; [| split]].
  - intros fp e H. unfold load_font, try_except, reading.
    destruct (negb (String.eqb fp "")); [| reflexivity].
    rewrite H. reflexivity.
  - reflexivity.
  - intros fp f Hne H. unfold load_font, try_except, reading.
    apply String.eqb_neq in Hne. rewrite Hne. simpl. rewrite H. reflexivity.
  - intros font_path. apply load_font_pure.
Qed.

(** X4. An opacity above 255 draws exactly what the opacity 255 draws. *)
Theorem opacity_above_255_is_255 :
  forall (image : Image) (text color : string) (opacity : Z)
         (position : string) (font : Font),
    255 <= opacity ->
    draw_watermark image text color opacity position font
    = draw_watermark image text color 255 position font.
Proof.
  intros image text color opacity position font H.
  unfold draw_watermark.
  replace (Z.min 255 opacity) with 255 by lia.
  reflexivity.
Qed.

End FontsAndOpacity.

Lemma load_font_falls_back_witness :
  Sim.truetype Scenario.tree "missing.ttf" 32 = inl (OSError "cannot open resource")
  /\ load_font (P := Sim.platform) (Some "missing.ttf") 32 (Sim.start Scenario.tree)
     = (inr (Sim.mkFont "" 10), Sim.start Scenario.tree).
Proof.
  split; [reflexivity |].
  rewrite (proj1 (load_font_falls_back (P := Sim.platform) 32
                    (Sim.start Scenario.tree))
             "missing.ttf" (OSError "cannot open resource") eq_refl).
  reflexivity.
Defined.

Lemma opacity_above_255_is_255_witness :
  255 <= 1000
  /\ draw_watermark (P := Sim.platform) Scenario.canvas "2022-07-04" "red" 1000
       "top-left" (Sim.mkFont "" 10)
     = inr (Sim.mkImage "RGBA" (640, 480) []
              [ Sim.mkDrawn (18, 18) "2022-07-04" [0; 0; 0; 255];
                Sim.mkDrawn (16, 16) "2022-07-04" [255; 0; 0; 255] ]).
Proof.
  split; [lia |].
  rewrite (opacity_above_255_is_255 (P := Sim.platform) Scenario.canvas
             "2022-07-04" "red" 1000 "top-left" (Sim.mkFont "" 10));
    [reflexivity | lia].
Defined.

(** ** What a run prints and counts *)

Section Streams.

Context {P : Platform}.
Local Open Scope prog_scope.
Local Open Scope path_scope.

Lemma quiet_ret {A} (a : A) : quiet (ret a).
Proof. intros s r s' H. inversion H; subst. auto. Qed.

Lemma quiet_lift {A} (x : Res A) : quiet (lift x).
Proof. intros s r s' H. inversion H; subst. auto. Qed.

Lemma quiet_reading {A} (f : World -> Res A) : quiet (reading f).
Proof. intros s r s' H. inversion H; subst. auto. Qed.

Lemma quiet_writing {A} (f : World -> Res A * World) : quiet (writing f).
Proof.
  intros s r s' H. unfold writing in H.
  destruct (f (fs s)) as [x w]. inversion H; subst. auto.
Qed.

Lemma quiet_bind {A B} (m : M A) (k : A -> M B) :
  quiet m -> (forall a, quiet (k a)) -> quiet (bind m k).
Proof.
  intros Hm Hk s r s' H. unfold bind in H.
  destruct (m s) as [[e | a] s1] eqn:E.
  - inversion H; subst. exact (Hm _ _ _ E).
  - destruct (Hm _ _ _ E) as [E1 E2].
    destruct (Hk a _ _ _ H) as [E3 E4]. split; congruence.
Qed.

Lemma quiet_try_except {A} (m : M A) (h : Exception -> M A) :
  quiet m -> (forall e, quiet (h e)) -> quiet (try_except m h).
Proof.
  intros Hm Hh s r s' H. unfold try_except in H.
  destruct (m s) as [[e | a] s1] eqn:E.
  - destruct (Hm _ _ _ E) as [E1 E2].
    destruct (Hh e _ _ _ H) as [E3 E4]. split; congruence.
  - inversion H; subst. exact (Hm _ _ _ E).
Qed.

Lemma quiet_with_Image_open {A} (input_file : Path) (body : Image -> M A) :
  (forall im, quiet (body im)) -> quiet (with_Image_open input_file body).
Proof.
  intros Hb. unfold with_Image_open. apply quiet_bind; [apply quiet_writing |].
  intros im s r s' H.
  destruct (body im s) as [x s1] eqn:E. inversion H; subst. simpl.
  exact (Hb im _ _ _ E).
Qed.

Lemma quiet_load_font (font_path : option string) (font_size : Z) :
  quiet (load_font font_path font_size).
Proof.
  unfold load_font. destruct font_path as [fp |]; [| apply quiet_reading].
  destruct (negb (String.eqb fp "")); [| apply quiet_reading].
  apply quiet_try_except; [| intros e]; apply quiet_reading.
Qed.

Lemma quiet_resolve_date (im : Image) (input_file : Path) :
  quiet (resolve_date im input_file).
Proof.
  unfold resolve_date, get_file_mtime.
  destruct (get_exif_datetime im); [apply quiet_ret |].
  apply quiet_bind; [apply quiet_reading | intros t; apply quiet_lift].
Qed.

(** The body of [process_image_file] prints nothing. *)
Lemma quiet_process_image_body (input_file output_dir : Path) (args : Args) :
  quiet (process_image_body input_file output_dir args).
Proof.
  unfold process_image_body. apply quiet_with_Image_open. intros im.
  apply quiet_bind; [apply quiet_resolve_date | intros date_dt].
  apply quiet_bind; [apply quiet_load_font | intros font].
  apply quiet_bind; [apply quiet_lift | intros out_rgba].
  apply quiet_bind; [apply quiet_writing | intros _].
  apply quiet_bind; [| intros _; apply quiet_ret].
  destruct (PyStr.endswith (PyStr.lower (out_name input_file)) ".jpg"
            || PyStr.endswith (PyStr.lower (out_name input_file)) ".jpeg").
  - apply quiet_bind; [apply quiet_lift | intros out_img; apply quiet_writing].
  - apply quiet_writing.
Qed.

(** What one call of [process_image_file] does to the streams. *)
Lemma process_image_file_outcome (input_file output_dir : Path) (args : Args)
    (s : State) :
  exists r s',
    process_image_file input_file output_dir args s = (inr r, s')
    /\ stdout s' = stdout s
    /\ match r with
       | Some q => q = output_dir // out_name input_file /\ stderr s' = stderr s
       | None =>
           exists e,
             stderr s'
             = (stderr s
                ++ [("Failed to process " ++ to_string input_file ++ ": "
                     ++ exc_str e)%string])%list
       end.
Proof.
  unfold process_image_file, try_except.
  destruct (process_image_body input_file output_dir args s) as [[e | r] s1] eqn:E;
    destruct (quiet_process_image_body _ _ _ _ _ _ E) as [E1 E2].
  - exists None, (failure_logged input_file e s1). split; [reflexivity |].
    split; [exact E2 |]. exists e. simpl. now rewrite E1.
  - exists r, s1. split; [reflexivity |]. split; [exact E2 |].
    rewrite (process_image_body_returns _ _ _ _ _ _ E). auto.
Qed.

Lemma new_errors_trans (s s1 s2 : State) :
  new_errors s s2 = new_errors s s1 + new_errors s1 s2.
Proof. unfold new_errors. lia. Qed.

(** The loop over the files of a directory never raises; every
    recognised name is either counted or reported. *)
Lemma files_loop_outcome (root_path rel output_root : Path) (args : Args)
    (files : list string) :
  forall (processed : Z) (s : State),
  exists n s',
    files_loop root_path rel output_root args files processed s = (inr n, s')
    /\ stdout s' = stdout s
    /\ processed <= n
    /\ (n - processed) + new_errors s s' = recognised root_path files.
Proof.
  induction files as [| name rest IH]; intros processed s.
  - exists processed, s. unfold recognised, new_errors. simpl.
    repeat split; try reflexivity; lia.
  - cbn [files_loop]. unfold recognised. cbn [filter].
    destruct (is_image_file (root_path // name)) eqn:Himg.
    + destruct (process_image_file_outcome (root_path // name)
                  (joinpath output_root rel) args s)
        as (r & s1 & Hrun & Hout & Hr).
      destruct (IH (count r processed) s1) as (n & s' & Hloop & Hout' & Hle & Hsum).
      exists n, s'. unfold bind at 1. rewrite Hrun.
      split; [exact Hloop |]. split; [congruence |].
      rewrite (new_errors_trans s s1 s'). unfold recognised in Hsum.
      cbn [List.length]. rewrite Nat2Z.inj_succ.
      destruct r as [q |]; simpl in Hle, Hsum.
      * destruct Hr as [_ Herr]. unfold new_errors at 1. rewrite Herr. lia.
      * destruct Hr as [e Herr]. unfold new_errors at 1. rewrite Herr.
        rewrite length_app. simpl. lia.
    + destruct (IH processed s) as (n & s' & Hloop & Hout' & Hle & Hsum).
      exists n, s'. auto.
Qed.

Lemma walk_loop_outcome (input_path output_root : Path) (args : Args)
    (walk : list (string * list string * list string)) :
  well_rooted input_path walk = true ->
  forall (processed : Z) (s : State),
  exists n s',
    walk_loop input_path output_root args walk processed s = (inr n, s')
    /\ stdout s' = stdout s
    /\ processed <= n
    /\ (n - processed) + new_errors s s' = recognised_in_walk walk.
Proof.
  induction walk as [| [[root dirs] files] more IH]; intros Hwell processed s.
  - exists processed, s. unfold new_errors. simpl.
    repeat split; try reflexivity; lia.
  - cbn [well_rooted forallb] in Hwell. apply andb_true_iff in Hwell as [Hroot Hmore].
    cbn [walk_loop recognised_in_walk].
    destruct (relative_to (of_string root) input_path) as [rel |];
      [| discriminate Hroot].
    destruct (files_loop_outcome (of_string root) rel output_root args files
                processed s) as (n1 & s1 & Hfiles & Hout1 & Hle1 & Hsum1).
    destruct (IH Hmore n1 s1) as (n & s' & Hwalk & Hout & Hle & Hsum).
    exists n, s'. unfold bind at 1. rewrite Hfiles.
    split; [exact Hwalk |]. split; [congruence |]. split; [lia |].
    rewrite (new_errors_trans s s1 s'). lia.
Qed.

(** X5. [process_image_file] never raises and never prints to the
    standard output.  Either it returns the path
    [output_dir / out_name] and prints nothing at all, or it returns
    [None] and prints exactly one line, the failure of this file, to
    the diagnostic stream. *)
Theorem process_image_file_never_raises :
  forall (input_file output_dir : Path) (args : Args) (s : State),
  exists r s',
    process_image_file input_file output_dir args s = (inr r, s')
    /\ stdout s' = stdout s
    /\ ((r = Some (output_dir // out_name input_file) /\ stderr s' = stderr s)
        \/ (r = None
            /\ exists e,
                 stderr s'
                 = (stderr s
                    ++ [("Failed to process " ++ to_string input_file ++ ": "
                         ++ exc_str e)%string])%list)).
Proof.
  intros input_file output_dir args s.
  destruct (process_image_file_outcome input_file output_dir args s)
    as (r & s' & Hrun & Hout & Hr).
  exists r, s'. split; [exact Hrun |]. split; [exact Hout |].
  destruct r as [q |].
  - left. destruct Hr as [Hq Herr]. now subst q.
  - right. auto.
Qed.

(** X6. [main] accounts for every file.  When the input path does not
    exist it exits with status 1, having printed one line to the
    diagnostic stream and changed nothing else.  Otherwise, for a walk
    whose directories lie under the input path, it raises nothing,
    returns, and prints one line to the standard output, the count [n]
    of processed images and the output root; [n] plus the number of
    lines printed to the diagnostic stream is 1 for an input file and
    the number of recognised file names of the walk for a directory. *)
Theorem main_accounts_for_every_file :
  forall (args : Args) (walk : list (string * list string * list string))
         (s : State),
    well_rooted (of_string (arg_input_path args)) walk = true ->
    exists status s',
      main args walk s = (inr status, s')
      /\ if path_exists (fs s) (of_string (arg_input_path args)) then
           status = Returned
           /\ exists n,
                0 <= n
                /\ stdout s'
                   = (stdout s
                      ++ [done_line n
                            (find_output_dir (fs s)
                               (of_string (arg_input_path args)))])%list
                /\ n + new_errors s s'
                   = (if path_is_file (fs s) (of_string (arg_input_path args))
                      then 1 else recognised_in_walk walk)
         else
           status = SystemExit 1
           /\ fs s' = fs s
           /\ stdout s' = stdout s
           /\ stderr s'
              = (stderr s
                 ++ [("Input path not found: "
                      ++ to_string (of_string (arg_input_path args)))%string])%list.
Proof.
  intros args walk s Hwell. unfold main.
  set (input := of_string (arg_input_path args)) in *.
  unfold bind at 1. unfold query at 1. cbn [negb].
  destruct (path_exists (fs s) input).
  - cbn [negb]. unfold bind at 1, query at 1. unfold bind at 1, query at 1.
    destruct (path_is_file (fs s) input).
    + destruct (is_image_file input).
      * destruct (process_image_file_outcome input (find_output_dir (fs s) input)
                    args s) as (r & s1 & Hrun & Hout & Hr).
        exists Returned. eexists. unfold bind. rewrite Hrun.
        unfold ret, print_stdout. split; [reflexivity |].
        split; [reflexivity |]. exists (count r 0). cbn [fs stderr stdout].
        split; [destruct r; simpl; lia |].
        split; [rewrite Hout; reflexivity |].
        unfold new_errors. cbn [stderr].
        destruct r as [q |]; cbn [count].
        -- destruct Hr as [_ Herr]. rewrite Herr. lia.
        -- destruct Hr as [e Herr]. rewrite Herr, length_app.
           cbn [List.length]. lia.
      * exists Returned. eexists. unfold bind, print_stderr, print_stdout, ret.
        split; [reflexivity |]. split; [reflexivity |]. exists 0.
        cbn [fs stderr stdout]. split; [lia |]. split; [reflexivity |].
        unfold new_errors. cbn [stderr]. rewrite length_app.
        cbn [List.length]. lia.
    + destruct (walk_loop_outcome input (find_output_dir (fs s) input) args walk
                  Hwell 0 s) as (n & s1 & Hwalk & Hout & Hle & Hsum).
      exists Returned. eexists. unfold bind. rewrite Hwalk.
      unfold ret, print_stdout. split; [reflexivity |].
      split; [reflexivity |]. exists n. cbn [fs stderr stdout].
      split; [lia |]. split; [rewrite Hout; reflexivity |].
      unfold new_errors in *. cbn [stderr]. lia.
  - cbn [negb]. exists (SystemExit 1). eexists.
    unfold bind, print_stderr, ret. split; [reflexivity |].
    cbn [fs stderr stdout]. auto.
Qed.

End Streams.

Lemma main_accounts_for_every_file_witness :
  well_rooted (of_string "album")
    [("album", [], ["bad.jpg"; "c.png"; "notes.txt"])] = true
  /\ recognised_in_walk [("album", [], ["bad.jpg"; "c.png"; "notes.txt"])] = 2
  /\ stdout (snd (main (P := Sim.platform) (Scenario.defaults "album")
                    [("album", [], ["bad.jpg"; "c.png"; "notes.txt"])]
                    (Sim.start Scenario.album)))
     = ["Done. Processed 1 image(s). Output: album/album_watermark"]
  /\ exists status s',
       main (P := Sim.platform) (Scenario.defaults "album")
         [("album", [], ["bad.jpg"; "c.png"; "notes.txt"])]
         (Sim.start Scenario.album)
       = (inr status, s').
Proof.
  split; [reflexivity |]. split; [reflexivity |]. split; [reflexivity |].
  destruct (main_accounts_for_every_file (P := Sim.platform)
              (Scenario.defaults "album")
              [("album", [], ["bad.jpg"; "c.png"; "notes.txt"])]
              (Sim.start Scenario.album) eq_refl)
    as (status & s' & Hrun & _).
  exists status, s'. exact Hrun.
Defined.

(** X7. Files without a recognised extension are left alone: a walk
    that yields only such names leaves the counter and the whole state,
    file system and streams, as they were. *)
Theorem unrecognised_files_are_left_alone :
  forall (P : Platform) (input_path output_root : Path) (args : Args)
         (walk : list (string * list string * list string))
         (processed : Z) (s : State),
    well_rooted input_path walk = true ->
    forallb
      (fun '(root, _, files) =>
         forallb (fun name => negb (is_image_file (of_string root // name)%path))
           files)
      walk = true ->
    walk_loop input_path output_root args walk processed s = (inr processed, s).
Proof.
  intros P input_path output_root args walk processed s.
  induction walk as [| [[root dirs] files] more IH]; intros Hwell Hnone;
    [reflexivity |].
  cbn [well_rooted forallb] in Hwell, Hnone.
  apply andb_true_iff in Hwell as [Hroot Hmore].
  apply andb_true_iff in Hnone as [Hfiles Hrest].
  cbn [walk_loop].
  destruct (relative_to (of_string root) input_path) as [rel |];
    [| discriminate Hroot].
  assert (Hloop : files_loop (of_string root) rel output_root args files processed s
                  = (inr processed, s)).
  { clear - Hfiles. induction files as [| name rest IHf]; [reflexivity |].
    cbn [forallb] in Hfiles. apply andb_true_iff in Hfiles as [Hname Hrest].
    apply negb_true_iff in Hname. cbn [files_loop]. rewrite Hname.
    apply IHf. assumption. }
  unfold bind. rewrite Hloop. apply IH; assumption.
Qed.

Lemma unrecognised_files_are_left_alone_witness :
  walk_loop (P := Sim.platform) (of_string "album") (of_string "album/album_watermark")
    (Scenario.defaults "album") [("album", [], ["notes.txt"; ".png"; "README"])]
    0 (Sim.start Scenario.album)
  = (inr 0, Sim.start Scenario.album).
Proof.
  apply (unrecognised_files_are_left_alone Sim.platform); reflexivity.
Defined.

(** ** File names *)

Section FileNames.

Local Open Scope path_scope.

Lemma lower_ascii_not_dot (a : ascii) :
  Ascii.eqb (PyStr.lower_ascii a) "." = Ascii.eqb a ".".
Proof. destruct a as [[] [] [] [] [] [] [] []]; reflexivity. Qed.

Lemma lower_ascii_idem (a : ascii) :
  PyStr.lower_ascii (PyStr.lower_ascii a) = PyStr.lower_ascii a.
Proof. destruct a as [[] [] [] [] [] [] [] []]; reflexivity. Qed.

Lemma lower_idem (s : string) : PyStr.lower (PyStr.lower s) = PyStr.lower s.
Proof.
  induction s as [| a s IH]; simpl; [reflexivity |].
  now rewrite lower_ascii_idem, IH.
Qed.

Lemma lower_length (s : string) : String.length (PyStr.lower s) = String.length s.
Proof. induction s; simpl; [reflexivity | now rewrite IHs]. Qed.

Lemma rfind_dot_lower (s : string) :
  PyStr.rfind "." (PyStr.lower s) = PyStr.rfind "." s.
Proof.
  induction s as [| a s IH]; simpl; [reflexivity |].
  now rewrite IH, lower_ascii_not_dot.
Qed.

Lemma lower_substring (s : string) :
  forall n m, PyStr.lower (substring n m s) = substring n m (PyStr.lower s).
Proof.
  induction s as [| a s IH]; intros n m.
  - destruct n, m; reflexivity.
  - destruct n as [| n]; destruct m as [| m]; simpl; try reflexivity.
    + now rewrite IH.
    + apply IH.
    + apply IH.
Qed.

(** The suffix of the lowered name is the lowered suffix. *)
Lemma suffix_of_lowered_name (p q : Path) :
  name q = PyStr.lower (name p) -> suffix q = PyStr.lower (suffix p).
Proof.
  intros H. unfold suffix, PyStr.len, PyStr.slice_from.
  rewrite H, rfind_dot_lower, lower_length.
  destruct ((0 <? PyStr.rfind "." (name p))
            && (PyStr.rfind "." (name p) <? Z.of_nat (String.length (name p)) - 1));
    [| reflexivity].
  now rewrite lower_substring.
Qed.

(** X8. Whether a file is an image file depends on its name only, and
    not on the case of its letters: two paths whose names agree up to
    the case are both image files or both not. *)
Theorem is_image_file_ignores_case :
  forall p q : Path,
    PyStr.lower (name p) = PyStr.lower (name q) ->
    is_image_file p = is_image_file q.
Proof.
  intros p q H. unfold is_image_file.
  pose proof (suffix_of_lowered_name p (mkPath "" [PyStr.lower (name p)]) eq_refl)
    as Hp.
  pose proof (suffix_of_lowered_name q (mkPath "" [PyStr.lower (name p)]) H)
    as Hq.
  rewrite <- Hp, Hq. reflexivity.
Qed.

Lemma is_image_file_ignores_case_witness :
  is_image_file (of_string "/photos/Trip/IMG_0001.JPeG")
  = is_image_file (of_string "img_0001.jpeg")
  /\ is_image_file (of_string "img_0001.jpeg") = true.
Proof.
  split; [| reflexivity].
  apply (is_image_file_ignores_case (of_string "/photos/Trip/IMG_0001.JPeG")
           (of_string "img_0001.jpeg")).
  reflexivity.
Defined.

Lemma rfind_append_found (c : ascii) (a b : string) :
  0 <= PyStr.rfind c b ->
  PyStr.rfind c (a ++ b) = PyStr.len a + PyStr.rfind c b.
Proof.
  intros Hb. unfold PyStr.len.
  induction a as [| x a IH]; [simpl; lia |].
  cbn [append PyStr.rfind String.length]. rewrite IH.
  destruct (0 <=? Z.of_nat (String.length a) + PyStr.rfind c b) eqn:E;
    [lia | apply Z.leb_gt in E; lia].
Qed.

Lemma substring_append_skip (a b : string) (n m : nat) :
  substring (String.length a + n) m (a ++ b) = substring n m b.
Proof. induction a; simpl; [reflexivity | assumption]. Qed.

(** The suffix of a name that ends in a proper extension of four
    characters after other text. *)
Lemma suffix_of_appended_extension (r : string) (l : list string) (a b : string) :
  PyStr.rfind "." b = 3 ->
  String.length b = 7%nat ->
  suffix (mkPath r (l ++ [(a ++ b)%string])%list) = substring 3 4 b.
Proof.
  intros Hdot Hlen. unfold suffix. rewrite name_snoc.
  rewrite rfind_append_found by lia. rewrite Hdot.
  unfold PyStr.len, PyStr.slice_from. rewrite length_append, Hlen.
  replace (0 <? Z.of_nat (String.length a) + 3) with true
    by (symmetry; apply Z.ltb_lt; lia).
  replace (Z.of_nat (String.length a) + 3 <? Z.of_nat (String.length a + 7) - 1)
    with true by (symmetry; apply Z.ltb_lt; lia).
  cbn [andb].
  replace (Z.to_nat (Z.of_nat (String.length a) + 3))
    with (String.length a + 3)%nat by lia.
  replace (String.length a + 7 - (String.length a + 3))%nat with 4%nat by lia.
  apply substring_append_skip.
Qed.

(** X9. Every file the program writes is itself an image file for the
    program: its suffix is [".png"] or [".jpg"], so a later run over a
    directory that holds the written files takes them as input. *)
Theorem written_file_is_image_file :
  forall (input_file output_dir : Path),
    wf input_file = true ->
    is_image_file (output_dir // out_name input_file) = true
    /\ suffix (output_dir // out_name input_file)
       = (if String.eqb (PyStr.lower (suffix input_file)) ".png"
          then ".png" else ".jpg").
Proof.
  intros input_file output_dir Hwf.
  rewrite (div_segment _ _ (out_name_segment _ Hwf)).
  unfold is_image_file, out_name.
  destruct (String.eqb (PyStr.lower (suffix input_file)) ".png").
  - rewrite (suffix_of_appended_extension _ _ (stem input_file) "_wm.png")
      by reflexivity.
    split; reflexivity.
  - rewrite (suffix_of_appended_extension _ _ (stem input_file) "_wm.jpg")
      by reflexivity.
    split; reflexivity.
Qed.

Lemma written_file_is_image_file_witness :
  wf (of_string "input/a.b.TIFF") = true
  /\ out_name (of_string "input/a.b.TIFF") = "a.b_wm.jpg"
  /\ is_image_file (of_string "out" // out_name (of_string "input/a.b.TIFF")) = true.
Proof.
  split; [reflexivity |]. split; [reflexivity |].
  apply (written_file_is_image_file (of_string "input/a.b.TIFF") (of_string "out")).
  reflexivity.
Defined.

End FileNames.

(** ** A file and the file written for it *)

Section NoOverwrite.

Context {P : Platform}.
Local Open Scope path_scope.

Lemma of_string_name_segs (x : string) :
  PyStr.contains sep x = false ->
  (List.length (segs (of_string x)) <= 1)%nat.
Proof.
  intros H. unfold of_string, splitroot.
  destruct x as [| a x]; [simpl; lia |].
  pose proof H as H'. simpl in H'. apply orb_false_iff in H' as [Ha _].
  rewrite Ha. cbn [segs]. rewrite (split_no_sep _ _ H).
  simpl. destruct (keep_seg (String a x)); simpl; lia.
Qed.

(** The path written for a file found under [rel]: the base directory,
    the output root, [rel], the output name. *)
Lemma written_path_parts (w : World) (input_path rel : Path)
    (root name : string) :
  wf input_path = true ->
  relative_to (of_string root) input_path = Some rel ->
  let base_dir :=
    if path_is_file w input_path then parent input_path else input_path in
  joinpath (find_output_dir w input_path) rel // out_name (of_string root // name)
  = mkPath (Pathlib.root base_dir)
      (segs base_dir
       ++ (Pathlib.name base_dir ++ "_watermark")%string
          :: segs rel ++ [out_name (of_string root // name)])%list.
Proof.
  intros Hwf Hrel base_dir. apply relative_to_inv in Hrel as (Hr & _ & _).
  assert (Hp : wf (of_string root // name) = true) by (apply div_wf, of_string_wf).
  rewrite (div_segment _ _ (out_name_segment _ Hp)).
  rewrite (find_output_dir_parts w input_path Hwf). fold base_dir.
  unfold joinpath. rewrite Hr. cbn [String.eqb segs Pathlib.root].
  rewrite <- !app_assoc. reflexivity.
Qed.

(** X10. The path written for a file is never the path of that file:
    in directory mode for every file the walk finds, in single-file
    mode for the input file.  (It can be the path of another file: in
    directory mode the written path lies inside the input directory,
    under the output root, where a later walk finds it.) *)
Theorem written_path_differs_from_its_source :
  forall (w : World) (s root name : string) (rel : Path),
    (path_is_file w (of_string s) = false ->
     relative_to (of_string root) (of_string s) = Some rel ->
     PyStr.contains sep name = false ->
     joinpath (find_output_dir w (of_string s)) rel
       // out_name (of_string root // name)
     <> of_string root // name
     /\ relative_to
          (joinpath (find_output_dir w (of_string s)) rel
           // out_name (of_string root // name))
          (of_string s)
        = Some (mkPath ""
                  ((Pathlib.name (of_string s) ++ "_watermark")%string
                   :: segs rel ++ [out_name (of_string root // name)])%list))
    /\ find_output_dir w (of_string s) // out_name (of_string s) <> of_string s.
Proof.
  intros w s root name rel. split.
  - intros Hdir Hrel Hname.
    pose proof (written_path_parts w (of_string s) rel root name
                  (of_string_wf s) Hrel) as Hparts.
    cbv zeta in Hparts. rewrite Hdir in Hparts. rewrite Hparts.
    split.
    + intros Heq. apply (f_equal (fun p => List.length (segs p))) in Heq.
      apply relative_to_inv in Hrel as (_ & _ & Hsegs).
      pose proof (of_string_name_segs name Hname) as Hn.
      unfold div, joinpath in Heq.
      rewrite (of_string_relative name Hname) in Heq.
      cbn [String.eqb segs] in Heq.
      rewrite Hsegs, !length_app in Heq. cbn [List.length] in Heq.
      rewrite length_app in Heq. cbn [List.length] in Heq. lia.
    + apply relative_to_joinpath; reflexivity.
  - intros Heq.
    assert (Hlen : List.length
                     (segs (find_output_dir w (of_string s)
                            // out_name (of_string s)))
                   = (List.length
                        (segs (if path_is_file w (of_string s)
                               then parent (of_string s) else of_string s)) + 2)%nat).
    { rewrite (div_segment _ _ (out_name_segment _ (of_string_wf s))).
      rewrite (find_output_dir_parts w (of_string s) (of_string_wf s)).
      cbn [segs]. rewrite !length_app. simpl. lia. }
    rewrite Heq in Hlen.
    destruct (path_is_file w (of_string s)); [| lia].
    unfold parent in Hlen. destruct (segs (of_string s)) as [| x l] eqn:E.
    + rewrite E in Hlen. simpl in Hlen. lia.
    + cbn [segs] in Hlen.
      assert (Hrl : List.length (removelast (x :: l)) = List.length l).
      { destruct (exists_last (l := x :: l)) as (l' & a & Ha); [discriminate |].
        rewrite Ha, removelast_last.
        apply (f_equal (@List.length string)) in Ha.
        rewrite length_app in Ha. simpl in Ha. lia. }
      rewrite Hrl in Hlen. simpl in Hlen. lia.
Qed.

End NoOverwrite.

Lemma written_path_differs_from_its_source_witness :
  Sim.is_file Scenario.tree (of_string "input") = false
  /\ (joinpath (find_output_dir (P := Sim.platform) Scenario.tree (of_string "input"))
        (of_string "sub")
      // out_name (of_string "input/sub" // "b.png"))%path
     = of_string "input/input_watermark/sub/b_wm.png"
  /\ of_string "input/input_watermark/sub/b_wm.png"
     <> (of_string "input/sub" // "b.png")%path
  /\ relative_to (of_string "input/input_watermark/sub/b_wm.png") (of_string "input")
     = Some (of_string "input_watermark/sub/b_wm.png").
Proof.
  split; [reflexivity |]. split; [reflexivity |].
  apply (proj1 (written_path_differs_from_its_source (P := Sim.platform)
                  Scenario.tree "input" "input/sub" "b.png" (of_string "sub")));
    reflexivity.
Defined.

(** ** The metadata dictionary *)

Section Metadata.

Context {P : Platform}.

Lemma TagKey_eqb_eq (a b : TagKey) : TagKey_eqb a b = true <-> a = b.
Proof.
  destruct a as [x | x], b as [y | y]; simpl; split; intros H;
    try discriminate; try (inversion H; subst).
  - apply String.eqb_eq in H. now subst.
  - apply String.eqb_refl.
  - apply Z.eqb_eq in H. now subst.
  - apply Z.eqb_refl.
Qed.

(** Looking a key up after [d[k] = v]. *)
Lemma dict_get_set (d : list (TagKey * ExifValue)) (k q : TagKey) (v : ExifValue) :
  dict_get (dict_set d k v) q = if TagKey_eqb q k then Some v else dict_get d q.
Proof.
  induction d as [| [k' v'] r IH]; [reflexivity |].
  cbn [dict_set]. destruct (TagKey_eqb k k') eqn:E.
  - apply TagKey_eqb_eq in E. subst k'. cbn [dict_get].
    destruct (TagKey_eqb q k); reflexivity.
  - cbn [dict_get]. rewrite IH.
    destruct (TagKey_eqb q k') eqn:E1; [| reflexivity].
    apply TagKey_eqb_eq in E1. subst q.
    destruct (TagKey_eqb k' k) eqn:E2; [| reflexivity].
    apply TagKey_eqb_eq in E2. subst k'.
    rewrite (proj2 (TagKey_eqb_eq k k) eq_refl) in E. discriminate E.
Qed.

Lemma find_snoc {A} (f : A -> bool) (l : list A) (a : A) :
  find f (l ++ [a])
  = match find f l with
    | Some x => Some x
    | None => if f a then Some a else None
    end.
Proof.
  induction l as [| x l IH]; simpl; [reflexivity |].
  destruct (f x); [reflexivity | exact IH].
Qed.

(** X11. The dictionary [tag_map] holds, under every key, the value of
    the last item of the metadata filed under that key (a tag is filed
    under its name in [ExifTags.TAGS], and under its number when it has
    none); a key under which no item is filed is absent. *)
Theorem tag_map_holds_last_value :
  forall (exif : list (Z * ExifValue)) (k : TagKey),
    dict_get (tag_map_of exif) k
    = option_map snd
        (find (fun item => TagKey_eqb k (tag_key (fst item))) (rev exif)).
Proof.
  intros exif k. unfold tag_map_of.
  assert (G : forall d0,
             dict_get
               (fold_left
                  (fun d '(tag, value) =>
                     dict_set d
                       (match ExifTags_TAGS tag with
                        | Some n => KName n
                        | None => KTag tag
                        end) value) exif d0) k
             = match find (fun item => TagKey_eqb k (tag_key (fst item))) (rev exif) with
               | Some item => Some (snd item)
               | None => dict_get d0 k
               end).
  { induction exif as [| [tag value] rest IH]; intros d0; [reflexivity |].
    cbn [fold_left rev]. rewrite IH, find_snoc.
    destruct (find (fun item => TagKey_eqb k (tag_key (fst item))) (rev rest));
      [reflexivity |].
    rewrite dict_get_set. cbn [fst snd]. unfold tag_key.
    destruct (TagKey_eqb k
                match ExifTags_TAGS tag with
                | Some n => KName n
                | None => KTag tag
                end); reflexivity. }
  rewrite G.
  destruct (find (fun item => TagKey_eqb k (tag_key (fst item))) (rev exif));
    reflexivity.
Qed.

Lemma try_formats_sound (text : string) (fmts : list string) (d : datetime) :
  try_formats text fmts = inr (Some d) ->
  exists fmt, In fmt fmts /\ strptime text fmt = inr d.
Proof.
  induction fmts as [| f fmts IH]; cbn [try_formats]; intros H; [discriminate |].
  destruct (strptime text f) as [e | d'] eqn:E.
  - destruct (isinstance e "ValueError"); [| discriminate].
    destruct (IH H) as (fmt & Hin & Hp). exists fmt. split; [now right | exact Hp].
  - inversion H; subst. exists f. split; [now left | exact E].
Qed.

Lemma scan_keys_sound (tag_map : list (TagKey * ExifValue)) (keys : list string)
    (d : datetime) :
  scan_keys tag_map keys = inr (Some d) ->
  exists key value text fmt,
    In key keys
    /\ dict_get tag_map (KName key) = Some value
    /\ truthy value = true
    /\ value_text value = inr text
    /\ In fmt datetime_formats
    /\ strptime text fmt = inr d.
Proof.
  induction keys as [| key keys IH]; cbn [scan_keys]; intros H; [discriminate |].
  assert (Hrest : scan_keys tag_map keys = inr (Some d) ->
                  exists key0 value text fmt,
                    In key0 (key :: keys)
                    /\ dict_get tag_map (KName key0) = Some value
                    /\ truthy value = true
                    /\ value_text value = inr text
                    /\ In fmt datetime_formats
                    /\ strptime text fmt = inr d).
  { intros H'. destruct (IH H') as (k0 & v & t & f & Hin & Hrest).
    exists k0, v, t, f. split; [now right | exact Hrest]. }
  destruct (dict_get tag_map (KName key)) as [value |] eqn:Hget; [| auto].
  destruct (truthy value) eqn:Htruthy; cbn [negb] in H; [| auto].
  destruct (value_text value) as [e | text] eqn:Htext; [auto |].
  destruct (try_formats text datetime_formats) as [e | [d' |]] eqn:Htry;
    [discriminate | | auto].
  inversion H; subst.
  destruct (try_formats_sound _ _ _ Htry) as (fmt & Hin & Hp).
  exists key, value, text, fmt. split; [now left | auto].
Qed.

(** X12. A date [get_exif_datetime] returns is never made up: it is
    what [strptime] gives, under one of the four formats, for the text
    of a present and non-empty value of one of the three keys. *)
Theorem get_exif_datetime_sound :
  forall (image : Image) (d : datetime),
    get_exif_datetime image = Some d ->
    exists exif key value text fmt,
      Image_getexif image = inr exif
      /\ In key datetime_keys
      /\ dict_get (tag_map_of exif) (KName key) = Some value
      /\ truthy value = true
      /\ value_text value = inr text
      /\ In fmt datetime_formats
      /\ strptime text fmt = inr d.
Proof.
  intros image d H. unfold get_exif_datetime, get_exif_datetime_body in H.
  destruct (Image_getexif image) as [e | exif] eqn:Hexif; [discriminate |].
  unfold res_bind in H. destruct exif as [| item rest] eqn:Hlist; [discriminate |].
  rewrite <- Hlist in *.
  destruct (scan_keys (tag_map_of exif) datetime_keys) as [e | r] eqn:Hscan;
    [discriminate |].
  subst r.
  destruct (scan_keys_sound _ _ _ Hscan) as (key & value & text & fmt & Hall).
  exists exif, key, value, text, fmt. split; [reflexivity | exact Hall].
Qed.

End Metadata.

Lemma get_exif_datetime_sound_witness :
  get_exif_datetime (P := Sim.platform) Scenario.im_both
  = Some (mkDatetime 2020 1 2 10 0 0)
  /\ exists exif key value text fmt,
       Sim.exif Scenario.im_both = exif
       /\ In key ["DateTimeOriginal"; "DateTimeDigitized"; "DateTime"]
       /\ dict_get (tag_map_of (P := Sim.platform) exif) (KName key) = Some value
       /\ value_text (P := Sim.platform) value = inr text
       /\ CPython.strptime text fmt = inr (mkDatetime 2020 1 2 10 0 0).
Proof.
  split; [reflexivity |].
  destruct (get_exif_datetime_sound (P := Sim.platform) Scenario.im_both
              (mkDatetime 2020 1 2 10 0 0) eq_refl)
    as (exif & key & value & text & fmt & Hexif & Hkey & Hget & _ & Htext & _ & Hp).
  exists exif, key, value, text, fmt.
  split; [now inversion Hexif |]. auto.
Defined.

(** ** What is drawn, and what a failure leaves *)

(** The drawing calls of [draw_watermark] on the simulated platform, with
    the text size as the bounding box gives it. *)
Lemma draw_watermark_on_sim :
  forall (im : Sim.image) (text color : string) (r g b opacity : Z)
         (position : string) (font : Sim.font),
    Sim.getrgb color = inr [r; g; b] ->
    0 <= opacity ->
    draw_watermark (P := Sim.platform) im text color opacity position font
    = inr (Sim.mkImage "RGBA" (Sim.size im) (Sim.exif im)
             (Sim.texts im
              ++ [ Sim.mkDrawn
                     (fst (compute_text_position (Sim.size im)
                             (0 + PyStr.len text * Sim.font_px font / 2 - 0,
                              0 + Sim.font_px font - 0) position default_margin) + 2,
                      snd (compute_text_position (Sim.size im)
                             (0 + PyStr.len text * Sim.font_px font / 2 - 0,
                              0 + Sim.font_px font - 0) position default_margin) + 2)
                     text [0; 0; 0; Z.min 255 opacity];
                   Sim.mkDrawn
                     (compute_text_position (Sim.size im)
                        (0 + PyStr.len text * Sim.font_px font / 2 - 0,
                         0 + Sim.font_px font - 0) position default_margin)
                     text [r; g; b; Z.min 255 opacity] ])%list).
Proof.
  intros im text color r g b opacity position font Hcolor Hop.
  unfold draw_watermark, parse_color.
  cbn [Image_mode Image_convert Image_new Image_size ImageDraw_textbbox
       ImageDraw_text Image_alpha_composite ImageColor_getrgb Sim.platform].
  rewrite Hcolor.
  replace (Z.max 0 (Z.min 255 opacity)) with (Z.min 255 opacity) by lia.
  assert (Hrefl : forall z, (z =? z) = true) by (intros z; apply Z.eqb_refl).
  destruct (String.eqb (Sim.mode im) "RGBA") eqn:Hmode; cbn [negb].
  - apply String.eqb_eq in Hmode.
    unfold Sim.convert, Sim.new, Sim.textbbox, res_bind.
    destruct (compute_text_position (Sim.size im)
                (0 + PyStr.len text * Sim.font_px font / 2 - 0,
                 0 + Sim.font_px font - 0) position default_margin) as [x y].
    unfold Sim.text, Sim.alpha_composite. cbn.
    rewrite Hmode, !Hrefl. cbn. reflexivity.
  - unfold Sim.convert, Sim.new, Sim.textbbox, res_bind.
    cbn [Sim.size Sim.mode Sim.exif Sim.texts].
    destruct (compute_text_position (Sim.size im)
                (0 + PyStr.len text * Sim.font_px font / 2 - 0,
                 0 + Sim.font_px font - 0) position default_margin) as [x y].
    unfold Sim.text, Sim.alpha_composite. cbn.
    rewrite !Hrefl. cbn. reflexivity.
Qed.

(** X13. On the simulated platform, for every image, text, font,
    position, colour that parses to [(r, g, b)] and opacity that is not
    negative, [draw_watermark] adds exactly two texts to the image, in
    this order: the shadow, in black, 2 pixels right of and below the
    computed position, then the text itself at the computed position
    in the colour; both with the alpha [min(255, opacity)].  The result
    is an RGBA image of the size of the input. *)
Theorem draw_watermark_draws_shadow_then_text :
  forall (im : Sim.image) (text color : string) (r g b opacity : Z)
         (position : string) (font : Sim.font),
    Sim.getrgb color = inr [r; g; b] ->
    0 <= opacity ->
    draw_watermark (P := Sim.platform) im text color opacity position font
    = inr (Sim.mkImage "RGBA" (Sim.size im) (Sim.exif im)
             (Sim.texts im
              ++ [ Sim.mkDrawn
                     (fst (compute_text_position (Sim.size im)
                             (PyStr.len text * Sim.font_px font / 2,
                              Sim.font_px font) position default_margin) + 2,
                      snd (compute_text_position (Sim.size im)
                             (PyStr.len text * Sim.font_px font / 2,
                              Sim.font_px font) position default_margin) + 2)
                     text [0; 0; 0; Z.min 255 opacity];
                   Sim.mkDrawn
                     (compute_text_position (Sim.size im)
                        (PyStr.len text * Sim.font_px font / 2,
                         Sim.font_px font) position default_margin)
                     text [r; g; b; Z.min 255 opacity] ])%list).
Proof.
  intros im text color r g b opacity position font Hcolor Hop.
  rewrite (draw_watermark_on_sim im text color r g b opacity position font
             Hcolor Hop).
  replace (0 + PyStr.len text * Sim.font_px font / 2 - 0)
    with (PyStr.len text * Sim.font_px font / 2) by lia.
  replace (0 + Sim.font_px font - 0) with (Sim.font_px font) by lia.
  reflexivity.
Qed.

Lemma draw_watermark_draws_shadow_then_text_witness :
  Sim.getrgb "#10Ff80" = inr [16; 255; 128]
  /\ draw_watermark (P := Sim.platform) Scenario.im_plain "2022-07-04" "#10Ff80" 90
       "bottom-left" (Sim.mkFont "DejaVuSans.ttf" 40)
     = inr (Sim.mkImage "RGBA" (640, 480) []
              [ Sim.mkDrawn (18, 426) "2022-07-04" [0; 0; 0; 90];
                Sim.mkDrawn (16, 424) "2022-07-04" [16; 255; 128; 90] ]).
Proof.
  split; [reflexivity |].
  rewrite (draw_watermark_draws_shadow_then_text Scenario.im_plain "2022-07-04"
             "#10Ff80" 16 255 128 90 "bottom-left" (Sim.mkFont "DejaVuSans.ttf" 40)
             eq_refl);
    [reflexivity | lia].
Defined.

Section FailureLeavesNothing.

Context {P : Platform}.
Local Open Scope path_scope.

Lemma resolve_date_pure (im : Image) (input_file : Path) :
  pure_read (resolve_date im input_file).
Proof.
  intros s. unfold resolve_date, get_file_mtime, bind, reading, lift, ret.
  destruct (get_exif_datetime im); [reflexivity |].
  destruct (path_stat_mtime (fs s) input_file); reflexivity.
Qed.

(** X14. A file that fails before it is written leaves nothing behind.
    When the file does not decode, or when it decodes and the date and
    the font are found but the watermark cannot be drawn,
    [process_image_file] returns [None] with the failure printed, and
    the file system is the one the opening (and closing) of the image
    left: neither the output directory nor a file has been made. *)
Theorem failure_before_writing_leaves_nothing :
  forall (input_file output_dir : Path) (args : Args) (s : State),
    (forall e w,
        Image_open input_file (fs s) = (inl e, w) ->
        process_image_file input_file output_dir args s
        = (inr None,
           failure_logged input_file e (mkState w (stderr s) (stdout s))))
    /\ (forall im w date_dt font e,
          Image_open input_file (fs s) = (inr im, w) ->
          fst (resolve_date im input_file (mkState w (stderr s) (stdout s)))
          = inr date_dt ->
          fst (load_font (arg_font_path args) (arg_font_size args)
                 (mkState w (stderr s) (stdout s)))
          = inr font ->
          draw_watermark im (format_date date_dt) (arg_color args)
            (arg_opacity args) (arg_position args) font = inl e ->
          process_image_file input_file output_dir args s
          = (inr None,
             failure_logged input_file e
               (mkState (Image_close im w) (stderr s) (stdout s)))).
Proof.
  intros input_file output_dir args s. split.
  - intros e w Hopen. unfold process_image_file, try_except.
    rewrite (process_image_body_decode_failure _ _ _ _ _ _ Hopen). reflexivity.
  - intros im w date_dt font e Hopen Hdate Hfont Hdraw.
    unfold process_image_file, try_except, process_image_body, with_Image_open.
    unfold bind at 1. unfold writing at 1. rewrite Hopen.
    unfold bind at 1.
    rewrite (surjective_pairing (resolve_date im input_file _)),
      resolve_date_pure, Hdate.
    unfold bind at 1.
    rewrite (surjective_pairing (load_font _ _ _)), load_font_pure, Hfont.
    unfold bind at 1. unfold lift at 1. rewrite Hdraw. reflexivity.
Qed.

End FailureLeavesNothing.

Lemma failure_before_writing_leaves_nothing_witness :
  Sim.open (of_string "album/bad.jpg") Scenario.album
  = (inl (mkException ["UnidentifiedImageError"; "OSError"; "Exception"]
            "cannot identify image file 'album/bad.jpg'"),
     Scenario.album)
  /\ fs (snd (process_image_file (P := Sim.platform) (of_string "album/bad.jpg")
                (of_string "album/album_watermark") (Scenario.defaults "album")
                (Sim.start Scenario.album)))
     = Scenario.album.
Proof.
  split; [reflexivity |].
  rewrite (proj1 (failure_before_writing_leaves_nothing (P := Sim.platform)
                    (of_string "album/bad.jpg") (of_string "album/album_watermark")
                    (Scenario.defaults "album") (Sim.start Scenario.album))
             _ _ eq_refl).
  reflexivity.
Defined.

(** ** The text of a date *)

Section DateText.

Lemma digits_length (n : nat) (s : string) :
  digits n s = true -> String.length s = n.
Proof.
  unfold digits. intros H. apply andb_true_iff in H as [H _].
  now apply Nat.eqb_eq in H.
Qed.

Lemma append_inj_same_length (a1 a2 r1 r2 : string) :
  String.length a1 = String.length a2 ->
  (a1 ++ r1 = a2 ++ r2)%string -> a1 = a2 /\ r1 = r2.
Proof.
  revert a2. induction a1 as [| x a1 IH]; intros [| y a2] Hlen H;
    try discriminate Hlen.
  - auto.
  - simpl in Hlen, H. inversion H; subst.
    destruct (IH a2 ltac:(lia) H2) as [E1 E2]. now subst.
Qed.

(** What follows the year in the text of a date is six characters long. *)
Lemma month_day_length (m d : Z) :
  1 <= m <= 31 -> 1 <= d <= 31 ->
  String.length ("-" ++ zfill 2 m ++ "-" ++ zfill 2 d) = 6%nat.
Proof.
  intros Hm Hd. cbn [append String.length].
  rewrite length_append. cbn [append String.length].
  rewrite (digits_length 2 _ (zfill_day _ Hm)), (digits_length 2 _ (zfill_day _ Hd)).
  reflexivity.
Qed.

(** X15. The text of a date tells the day: two dates [format_date]
    renders alike have the same year, month and day. *)
Theorem format_date_tells_the_day :
  forall d1 d2 : datetime,
    datetime_ok d1 = true ->
    datetime_ok d2 = true ->
    format_date d1 = format_date d2 ->
    year d1 = year d2 /\ month d1 = month d2 /\ day d1 = day d2.
Proof.
  intros d1 d2 H1 H2 Heq.
  destruct (datetime_ok_ranges d1 H1) as (Y1 & M1 & D1).
  destruct (datetime_ok_ranges d2 H2) as (Y2 & M2 & D2).
  unfold format_date, strftime_Y_m_d in Heq.
  assert (Hlen : String.length (str_of_int (year d1))
                 = String.length (str_of_int (year d2))).
  { pose proof (f_equal String.length Heq) as L.
    rewrite !length_append in L.
    rewrite <- !length_append in L.
    rewrite (length_append (str_of_int (year d1))) in L.
    rewrite (length_append (str_of_int (year d2))) in L.
    rewrite (month_day_length _ _ M1 D1), (month_day_length _ _ M2 D2) in L.
    lia. }
  apply append_inj_same_length in Heq as [Hy Heq]; [| exact Hlen].
  apply (append_inj_same_length "-" "-") in Heq as [_ Heq]; [| reflexivity].
  apply append_inj_same_length in Heq as [Hm Heq];
    [| rewrite (digits_length 2 _ (zfill_day _ M1)),
         (digits_length 2 _ (zfill_day _ M2)); reflexivity].
  apply (append_inj_same_length "-" "-") in Heq as [_ Hd]; [| reflexivity].
  pose proof (str_year_read_back _ Y1) as Ry1.
  pose proof (str_year_read_back _ Y2) as Ry2.
  pose proof (zfill_day_read_back _ M1) as Rm1.
  pose proof (zfill_day_read_back _ M2) as Rm2.
  pose proof (zfill_day_read_back _ D1) as Rd1.
  pose proof (zfill_day_read_back _ D2) as Rd2.
  rewrite Hy in Ry1. rewrite Hm in Rm1. rewrite Hd in Rd1.
  apply Z.eqb_eq in Ry1, Ry2, Rm1, Rm2, Rd1, Rd2.
  repeat split; congruence.
Qed.

End DateText.

Lemma format_date_tells_the_day_witness :
  format_date (mkDatetime 2020 1 2 10 0 0) = format_date (mkDatetime 2020 1 2 23 59 59)
  /\ year (mkDatetime 2020 1 2 10 0 0) = year (mkDatetime 2020 1 2 23 59 59).
Proof.
  split; [reflexivity |].
  apply (format_date_tells_the_day (mkDatetime 2020 1 2 10 0 0)
           (mkDatetime 2020 1 2 23 59 59));
    reflexivity.
Defined.
